(** * frext-web: the API client and the request-state hooks

    A shallow embedding of [src/lib/api/client.ts] and
    [src/lib/api/hooks/useApi.ts].

    - JavaScript values that cross the wire are JSON values ([Json]);
      [undefined] is [None] in [option Json].
    - [async] functions run in a state-and-exception monad [M]: a promise that
      rejects is a computation that throws, [await] is sequencing.
    - Header objects live in a store ([heap]) and clients hold a reference to
      them, because the constructor stores [API_CONFIG.headers] itself and not
      a copy.
    - The backend is not part of the repository; it is the [server] field of
      the world, a function from the requests issued so far and the current
      request to what [fetch] does. *)

From Stdlib Require Import ZArith Lia Bool.
From stdpp Require Import base option strings gmap list pretty.

Set Warnings "-register-all".
Open Scope Z_scope.
Open Scope string_scope.

(** ** JavaScript values *)

(** A number is kept as the text [Number::toString] gives for it: [42] is
    ["42"], one half is ["0.5"], ten to the 21 is ["1e+21"].  The code never
    computes with a number that crosses the wire or names a template or a
    page; it tests it for truthiness and prints it.  Both zeros print as
    ["0"]. *)
Definition JsNumber : Type := string.

(** ToBoolean of a number: zero and [NaN] are falsy. *)
Definition Number_truthy (n : JsNumber) : bool :=
  negb (String.eqb n "0" || String.eqb n "NaN").

(** What [JSON.parse] and [response.json()] produce. *)
Inductive Json : Type :=
| JNull
| JBool (b : bool)
| JNum (n : JsNumber)
| JStr (s : string)
| JArr (items : list Json)
| JObj (fields : list (string * Json)).

(** ToBoolean. *)
Definition truthy (v : Json) : bool :=
  match v with
  | JNull => false
  | JBool b => b
  | JNum n => Number_truthy n
  | JStr s => negb (String.eqb s "")
  | JArr _ | JObj _ => true
  end.

(** ToBoolean of a possibly [undefined] value. *)
Definition truthy_opt (v : option Json) : bool :=
  match v with
  | Some j => truthy j
  | None => false
  end.

(** [a || null], where [null] in hook state is [None]. *)
(** [a || b] on values, [b] being defined. *)
Definition or_else (a : option Json) (b : Json) : Json :=
  match a with
  | Some j => if truthy j then j else b
  | None => b
  end.

(** [a || null], where [null] in hook state is [None]. *)
Definition or_null (a : option Json) : option Json :=
  if truthy_opt a then a else None.

(** Own property of a parsed object; the first binding of a key is the
    property. *)
Fixpoint lookup_field (p : string) (fields : list (string * Json)) : option Json :=
  match fields with
  | [] => None
  | (k, v) :: rest => if String.eqb k p then Some v else lookup_field p rest
  end.

(** ToString, as [String(v)], a template literal and [new Error(v)] apply it;
    [None] when the conversion throws its [TypeError].  Arrays join their
    elements with a comma, printing [null] as the empty string.  A parsed
    object prints as [[object Object]] through [Object.prototype.toString],
    unless it has a member of its own called [toString]: that member is no
    function, [valueOf] gives back the object, and the conversion throws. *)
Fixpoint toString (v : Json) : option string :=
  match v with
  | JNull => Some "null"
  | JBool true => Some "true"
  | JBool false => Some "false"
  | JNum n => Some n
  | JStr s => Some s
  | JArr items =>
      (fix join (l : list Json) : option string :=
         match l with
         | [] => Some ""
         | x :: rest =>
             match (match x with JNull => Some "" | _ => toString x end) with
             | None => None
             | Some sx =>
                 match rest with
                 | [] => Some sx
                 | _ :: _ =>
                     match join rest with
                     | None => None
                     | Some srest => Some (sx +:+ "," +:+ srest)
                     end
                 end
             end
         end) items
  | JObj fields =>
      match lookup_field "toString" fields with
      | Some _ => None
      | None => Some "[object Object]"
      end
  end.

(** [String.prototype.includes]. *)
Fixpoint includes (s sub : string) : bool :=
  String.prefix sub s ||
  match s with
  | EmptyString => false
  | String _ rest => includes rest sub
  end.

(** ** Exceptions *)

(** A thrown value: an object for which [instanceof Error] holds (this
    includes [TypeError], [SyntaxError] and [DOMException]), with its [name]
    and [message], or any other value. *)
Inductive Thrown : Type :=
| ErrorObj (name message : string)
| Raised (v : option Json).

(** The [TypeError] of a conversion to string that fails (V8's wording). *)
Definition cannot_convert_error : Thrown :=
  ErrorObj "TypeError" "Cannot convert object to primitive value".

(** What [throw new Error(v)] throws: the new error, whose message is [v] as
    a string, or the [TypeError] of the conversion. *)
Definition new_Error (v : Json) : Thrown :=
  match toString v with
  | Some message => ErrorObj "Error" message
  | None => cannot_convert_error
  end.

(** [e.message] of the [e] that [throw new Error(v)] throws. *)
Definition new_Error_message (v : Json) : string :=
  match toString v with
  | Some message => message
  | None => "Cannot convert object to primitive value"
  end.

(** The [TypeError] of a property read on [null] (V8's wording). *)
Definition null_property_error (p : string) : Thrown :=
  ErrorObj "TypeError" ("Cannot read properties of null (reading '" +:+ p +:+ "')").

Inductive Result (A : Type) : Type :=
| Returns (a : A)
| Throws (e : Thrown).
Arguments Returns {A} a.
Arguments Throws {A} e.

(** ** The monad of asynchronous code *)

Definition M (S A : Type) : Type := S -> Result A * S.

Definition ret {S A : Type} (a : A) : M S A := fun s => (Returns a, s).

Definition bind {S A B : Type} (m : M S A) (k : A -> M S B) : M S B :=
  fun s =>
    match m s with
    | (Returns a, s') => k a s'
    | (Throws e, s') => (Throws e, s')
    end.

Definition throw {S A : Type} (e : Thrown) : M S A := fun s => (Throws e, s).

(** [try { body } catch (e) { handler e }], also [promise.catch(handler)]. *)
Definition try_catch {S A : Type} (body : M S A) (handler : Thrown -> M S A) : M S A :=
  fun s =>
    match body s with
    | (Returns a, s') => (Returns a, s')
    | (Throws e, s') => handler e s'
    end.

(** [try { body } finally { fin }]. *)
Definition try_finally {S A : Type} (body : M S A) (fin : M S unit) : M S A :=
  fun s =>
    match body s with
    | (r, s') =>
        match fin s' with
        | (Returns _, s'') => (r, s'')
        | (Throws e, s'') => (Throws e, s'')
        end
    end.

Definition gets {S A : Type} (f : S -> A) : M S A := fun s => (Returns (f s), s).

Definition modify {S : Type} (f : S -> S) : M S unit := fun s => (Returns tt, f s).

Definition of_result {S A : Type} (r : Result A) : M S A := fun s => (r, s).

Declare Scope js_scope.
Delimit Scope js_scope with js.
Notation "x <- m ;; k" := (bind m (fun x => k))
  (at level 100, m at next level, right associativity) : js_scope.
Notation "m ;;; k" := (bind m (fun _ => k))
  (at level 100, right associativity) : js_scope.
Open Scope js_scope.

(** [v.p]: throws on [null], is [undefined] on every other non-object.  The
    properties the code reads ([message], [success], [data], [error],
    [token]) are not built-in properties of strings, numbers or arrays. *)
Definition getProp {S : Type} (v : Json) (p : string) : M S (option Json) :=
  match v with
  | JNull => throw (null_property_error p)
  | JObj fields => ret (lookup_field p fields)
  | _ => ret None
  end.

(** [v?.p] for a possibly [undefined] [v]. *)
Definition getPropOpt {S : Type} (v : option Json) (p : string) : M S (option Json) :=
  match v with
  | None | Some JNull => ret None
  | Some j => getProp j p
  end.

(** [response.success && response.data], as a condition. *)
Definition success_and_data {S : Type} (response : Json) : M S bool :=
  success <- getProp response "success" ;;
  if truthy_opt success
  then data <- getProp response "data" ;; ret (truthy_opt data)
  else ret false.

(** An optional callback [(stage) => void]: absent, or a function that returns
    or throws. *)
Definition call_opt {S A : Type} (f : option (A -> Result unit)) (a : A) : M S unit :=
  match f with
  | None => ret tt
  | Some g => of_result (g a)
  end.

(** ** The world: browser, backend and module-level objects *)

Definition loc : Type := positive.

Definition File : Type := string.

(** The [options] of an OCR request. *)
Record OCROptions : Type := {
  languageHints : option (list string);
  documentType : option string
}.

(** A [FormData] entry: a file, a string, or [JSON.stringify(options)]. *)
Inductive FormValue : Type :=
| FormFile (f : File)
| FormText (s : string)
| FormOptions (o : OCROptions).

Definition FormData : Type := list (string * FormValue).

(** A request body: [JSON.stringify(data)] or a [FormData]. *)
Inductive Body : Type :=
| JsonBody (data : Json)
| FormBody (formData : FormData).

(** The [RequestInit] a caller of [request] passes. *)
Record RequestInit : Type := {
  method : option string;
  body : option Body;
  headers : option (gmap string string)
}.

(** What [fetch] is called with: the URL and the merged [config]. *)
Record Request : Type := {
  req_url : string;
  req_method : option string;
  req_body : option Body;
  req_headers : gmap string string;
  req_signal_timeout : Z
}.

(** [response.json()] resolves to a value or rejects. *)
Inductive BodyOutcome : Type :=
| BodyJson (j : Json)
| BodyRejects (e : Thrown).

Record Response : Type := {
  status : Z;
  statusText : string;
  json : BodyOutcome
}.

(** [response.ok]: the status is in the range 200-299. *)
Definition ok (r : Response) : bool := (200 <=? status r)%Z && (status r <=? 299)%Z.

(** [fetch] resolves with a response or rejects. *)
Inductive FetchOutcome : Type :=
| Rejects (e : Thrown)
| Resolves (r : Response).

(** Everything the code reads or changes outside its local variables:
    - [NEXT_PUBLIC_API_BASE_URL]: the build-time environment variable;
    - [server]: what [fetch] does with a request, given the requests issued
      before it;
    - [hasWindow]: [typeof window !== 'undefined'], a browser and not the
      server-side render;
    - [localStorage]: the browser's storage, whose accesses always succeed;
    - [heap]: the header objects, by reference;
    - [issued]: the requests handed to [fetch] so far, oldest first. *)
Record World : Type := {
  NEXT_PUBLIC_API_BASE_URL : option string;
  server : list Request -> Request -> FetchOutcome;
  hasWindow : bool;
  localStorage : gmap string string;
  heap : gmap loc (gmap string string);
  issued : list Request
}.

Definition set_localStorage (f : gmap string string -> gmap string string) (w : World) : World :=
  {| NEXT_PUBLIC_API_BASE_URL := NEXT_PUBLIC_API_BASE_URL w;
     server := server w;
     hasWindow := hasWindow w;
     localStorage := f (localStorage w);
     heap := heap w;
     issued := issued w |}.

Definition set_heap (f : gmap loc (gmap string string) -> gmap loc (gmap string string))
    (w : World) : World :=
  {| NEXT_PUBLIC_API_BASE_URL := NEXT_PUBLIC_API_BASE_URL w;
     server := server w;
     hasWindow := hasWindow w;
     localStorage := localStorage w;
     heap := f (heap w);
     issued := issued w |}.

Definition log_request (rq : Request) (w : World) : World :=
  {| NEXT_PUBLIC_API_BASE_URL := NEXT_PUBLIC_API_BASE_URL w;
     server := server w;
     hasWindow := hasWindow w;
     localStorage := localStorage w;
     heap := heap w;
     issued := (issued w ++ [rq])%list |}.

(** The header object stored at [l]. *)
Definition read_headers (l : loc) (w : World) : gmap string string :=
  default ∅ (heap w !! l).

(** [fetch(url, config)]: the request is issued and the backend decides. *)
Definition fetch (rq : Request) : M World Response :=
  fun w =>
    match server w (issued w) rq with
    | Rejects e => (Throws e, log_request rq w)
    | Resolves r => (Returns r, log_request rq w)
    end.

Definition response_json {S : Type} (r : Response) : M S Json :=
  match json r with
  | BodyJson j => ret j
  | BodyRejects e => throw e
  end.

Definition localStorage_getItem (k : string) : M World (option string) :=
  gets (fun w => localStorage w !! k).

Definition localStorage_setItem (k v : string) : M World unit :=
  modify (set_localStorage (insert k v)).

Definition localStorage_removeItem (k : string) : M World unit :=
  modify (set_localStorage (delete k)).

(** ** client.ts: configuration and the client class *)

(** The object literal [API_CONFIG.headers]. *)
Definition API_CONFIG_headers : loc := 1%positive.

(** [process.env.NEXT_PUBLIC_API_BASE_URL || 'http://localhost:3001']. *)
Definition API_CONFIG_baseUrl (w : World) : string :=
  match NEXT_PUBLIC_API_BASE_URL w with
  | Some s => if String.eqb s "" then "http://localhost:3001" else s
  | None => "http://localhost:3001"
  end.

Definition API_CONFIG_apiPrefix : string := "/api/v1".

Definition API_CONFIG_timeout : Z := 30000.

(** The store right after the module is loaded. *)
Definition module_heap : gmap loc (gmap string string) :=
  {[ API_CONFIG_headers := {[ "Content-Type" := "application/json" ]} ]}.

Definition load (env : option string) (srv : list Request -> Request -> FetchOutcome)
    (window : bool) (storage : gmap string string) : World :=
  {| NEXT_PUBLIC_API_BASE_URL := env;
     server := srv;
     hasWindow := window;
     localStorage := storage;
     heap := module_heap;
     issued := [] |}.

Record FrextApiClient : Type := {
  baseUrl : string;
  defaultHeaders : loc
}.

(** The constructor: [defaultHeaders] is the object [API_CONFIG.headers]
    itself. *)
Definition new_FrextApiClient (w : World) (base : option string) : FrextApiClient :=
  {| baseUrl := default (API_CONFIG_baseUrl w) base +:+ API_CONFIG_apiPrefix;
     defaultHeaders := API_CONFIG_headers |}.

Definition update_headers (l : loc) (f : gmap string string -> gmap string string)
    : M World unit :=
  modify (fun w => set_heap (insert l (f (read_headers l w))) w).

Definition setAuthToken (c : FrextApiClient) (token : string) : M World unit :=
  update_headers (defaultHeaders c) (insert "Authorization" ("Bearer " +:+ token)).

Definition clearAuthToken (c : FrextApiClient) : M World unit :=
  update_headers (defaultHeaders c) (delete "Authorization").

Definition timeout_message : string :=
  "リクエストがタイムアウトしました。時間をおいて再試行してください。".

Definition network_message : string :=
  "frext-apiサーバーに接続できません。ネットワーク接続を確認してください。".

(** The object literal [{ success: false, error }]. *)
Definition failure (error : string) : Json :=
  JObj [("success", JBool false); ("error", JStr error)].

(** The generic text of a non-2xx response. *)
Definition http_status_message (r : Response) : string :=
  "HTTP " +:+ pretty (status r) +:+ ": " +:+ statusText r.

(** The [catch] block of [request]. *)
Definition request_catch (error : Thrown) : Json :=
  match error with
  | ErrorObj name message =>
      if String.eqb name "AbortError" then failure timeout_message
      else if includes message "NetworkError" || includes message "Failed to fetch"
      then failure network_message
      else failure message
  | Raised _ => failure "Unknown error occurred"
  end.

(** The common fetch wrapper.  [console.log] is left out, but its argument
    [data.success] is evaluated, as it throws when [data] is [null]. *)
Definition request (c : FrextApiClient) (endpoint : string) (options : RequestInit)
    : M World Json :=
  defaults <- gets (read_headers (defaultHeaders c)) ;;
  let config :=
    {| req_url := baseUrl c +:+ endpoint;
       req_method := method options;
       req_body := body options;
       req_headers := default ∅ (headers options) ∪ defaults;
       req_signal_timeout := API_CONFIG_timeout |} in
  try_catch
    (response <- fetch config ;;
     if negb (ok response)
     then
       errorData <- try_catch (response_json response) (fun _ => ret (JObj [])) ;;
       message <- getProp errorData "message" ;;
       throw (new_Error (or_else message (JStr (http_status_message response))))
     else
       data <- response_json response ;;
       _ <- getProp data "success" ;;
       ret data)
    (fun error => ret (request_catch error)).

Definition get (c : FrextApiClient) (endpoint : string) : M World Json :=
  request c endpoint {| method := Some "GET"; body := None; headers := None |}.

(** [data ? JSON.stringify(data) : undefined] is the body. *)
Definition post (c : FrextApiClient) (endpoint : string) (data : option Json)
    : M World Json :=
  request c endpoint
    {| method := Some "POST";
       body := if truthy_opt data then JsonBody <$> data else None;
       headers := None |}.

Definition postFormData (c : FrextApiClient) (endpoint : string) (formData : FormData)
    : M World Json :=
  defaults <- gets (read_headers (defaultHeaders c)) ;;
  let headers := delete "Content-Type" defaults in
  request c endpoint
    {| method := Some "POST";
       body := Some (FormBody formData);
       headers := Some headers |}.

Definition healthCheck (c : FrextApiClient) : M World Json := get c "/health".

(** The singleton, built when the module is loaded. *)
Definition frextApiClient (w : World) : FrextApiClient := new_FrextApiClient w None.

(** Runs a method of the singleton. *)
Definition with_client {A : Type} (f : FrextApiClient -> M World A) : M World A :=
  fun w => f (frextApiClient w) w.

(** ** client.ts: the exported operations *)

Record OCRRequest : Type := {
  image : File;
  ocr_templateId : option JsNumber;
  options : option OCROptions
}.

Record GPTRequest : Type := {
  gpt_ocrResult : option Json;
  gpt_templateId : option JsNumber;
  customPrompt : option string
}.

(** The form both upload operations build. *)
Definition upload_form (rq : OCRRequest) : FormData :=
  ([("image", FormFile (image rq))]
   ++ match ocr_templateId rq with
      | Some n => if Number_truthy n then [("templateId", FormText n)] else []
      | None => []
      end
   ++ match options rq with
      | Some o => [("options", FormOptions o)]
      | None => []
      end)%list.

Definition processOCR (rq : OCRRequest) : M World Json :=
  with_client (fun c => postFormData c "/ocr/process" (upload_form rq)).

(** The request object as [JSON.stringify] sees it: absent members are
    dropped. *)
Definition GPTRequest_json (rq : GPTRequest) : Json :=
  JObj (match gpt_ocrResult rq with
        | Some o => [("ocrResult", o)]
        | None => []
        end
        ++ match gpt_templateId rq with
           | Some n => [("templateId", JNum n)]
           | None => []
           end
        ++ match customPrompt rq with
           | Some p => [("customPrompt", JStr p)]
           | None => []
           end)%list.

Definition processGPT (rq : GPTRequest) : M World Json :=
  with_client (fun c => post c "/gpt/process" (Some (GPTRequest_json rq))).

Definition processComplete (rq : OCRRequest) : M World Json :=
  with_client (fun c => postFormData c "/process/complete" (upload_form rq)).

Definition getTemplates : M World Json :=
  with_client (fun c => get c "/templates").

Definition getTemplate (id : JsNumber) : M World Json :=
  with_client (fun c => get c ("/templates/" +:+ id)).

Definition getProcessingResult (id : string) : M World Json :=
  with_client (fun c => get c ("/results/" +:+ id)).

Definition getUserProfile : M World Json :=
  with_client (fun c => get c "/user/profile").

Definition getSystemInfo : M World Json :=
  with_client (fun c => get c "/system/info").

(** [response.error || 'frext-api request failed'] is thrown. *)
Definition handleApiError {A : Type} (response : Json) : M World A :=
  error <- getProp response "error" ;;
  throw (new_Error (or_else error (JStr "frext-api request failed"))).

Definition testConnection : M World (option Json) :=
  try_catch
    (response <- with_client healthCheck ;;
     getProp response "success")
    (fun _ => ret (Some (JBool false))).

Module authApi.

Definition login (email password : string) : M World Json :=
  response <- with_client (fun c =>
    post c "/auth/login" (Some (JObj [("email", JStr email); ("password", JStr password)]))) ;;
  success <- getProp response "success" ;;
  token <- (if truthy_opt success
            then data <- getProp response "data" ;; getPropOpt data "token"
            else ret success) ;;
  match token with
  | Some t =>
      if truthy t
      then
        match toString t with
        | Some text =>
            with_client (fun c => setAuthToken c text) ;;;
            window <- gets hasWindow ;;
            (if window then localStorage_setItem "frext_auth_token" text else ret tt) ;;;
            ret response
        | None => throw cannot_convert_error
        end
      else ret response
  | None => ret response
  end.

Definition logout : M World Json :=
  response <- with_client (fun c => post c "/auth/logout" None) ;;
  with_client clearAuthToken ;;;
  window <- gets hasWindow ;;
  (if window then localStorage_removeItem "frext_auth_token" else ret tt) ;;;
  ret response.

Definition signup (userData : Json) : M World Json :=
  with_client (fun c => post c "/auth/signup" (Some userData)).

Definition verifyToken (token : string) : M World Json :=
  with_client (fun c => setAuthToken c token) ;;;
  with_client (fun c => get c "/auth/verify").

(** The result is [false] or whatever [response.success] holds. *)
Definition autoLogin : M World (option Json) :=
  window <- gets hasWindow ;;
  if negb window then ret (Some (JBool false))
  else
    savedToken <- localStorage_getItem "frext_auth_token" ;;
    match savedToken with
    | None | Some "" => ret (Some (JBool false))
    | Some savedToken =>
        try_catch
          (response <- verifyToken savedToken ;;
           getProp response "success")
          (fun _ =>
             localStorage_removeItem "frext_auth_token" ;;;
             ret (Some (JBool false)))
    end.

End authApi.

(** ** useApi.ts: hooks

    A hook method runs over the world and the hook's own React state. *)

Definition liftW {H A : Type} (m : M World A) : M (World * H) A :=
  fun s =>
    match m (fst s) with
    | (r, w') => (r, (w', snd s))
    end.

(** [setState(f)], with [f] the updater; [setState(v)] is [setState (fun _ => v)]. *)
Definition setState {H : Type} (f : H -> H) : M (World * H) unit :=
  modify (fun s => (fst s, f (snd s))).

(** [error instanceof Error ? error.message : fallback]. *)
Definition message_or (error : Thrown) (fallback : string) : string :=
  match error with
  | ErrorObj _ message => message
  | Raised _ => fallback
  end.

(** [throw new Error(response.error || fallback)]. *)
Definition throw_response_error {S A : Type} (response : Json) (fallback : string) : M S A :=
  error <- getProp response "error" ;;
  throw (new_Error (or_else error (JStr fallback))).

Module useFrextApi.

Record ApiState : Type := {
  data : option Json;
  loading : bool;
  error : option string
}.

Definition initial : ApiState := {| data := None; loading := false; error := None |}.

Definition execute (apiCall : M World Json) : M (World * ApiState) (option Json) :=
  setState (fun prev => {| data := data prev; loading := true; error := None |}) ;;;
  try_catch
    (response <- liftW apiCall ;;
     succeeded <- success_and_data response ;;
     if succeeded
     then
       d <- getProp response "data" ;;
       setState (fun _ => {| data := d; loading := false; error := None |}) ;;;
       ret d
     else throw_response_error response "frext-api呼び出しに失敗しました")
    (fun error =>
       let errorMessage := message_or error "Unknown error" in
       setState (fun _ => {| data := None; loading := false; error := Some errorMessage |}) ;;;
       ret None).

Definition reset : M (World * ApiState) unit := setState (fun _ => initial).

End useFrextApi.

Module useOCRProcess.

Inductive Progress : Type := idle | uploading | processing | complete.

Record State : Type := {
  loading : bool;
  error : option string;
  progress : Progress;
  result : option Json
}.

Definition initial : State :=
  {| loading := false; error := None; progress := idle; result := None |}.


Definition reset : M (World * State) unit := setState (fun _ => initial).

End useOCRProcess.

Module useGPTProcess.

Inductive Progress : Type := idle | analyzing | complete.

Record State : Type := {
  loading : bool;
  error : option string;
  progress : Progress;
  result : option Json
}.

Definition initial : State :=
  {| loading := false; error := None; progress := idle; result := None |}.


Definition reset : M (World * State) unit := setState (fun _ => initial).

End useGPTProcess.

Module useCompleteProcess.

Inductive Progress : Type := idle | uploading | ocr | gpt | complete.

Record State : Type := {
  loading : bool;
  error : option string;
  progress : Progress;
  ocrResult : option Json;
  gptResult : option Json
}.

Definition initial : State :=
  {| loading := false; error := None; progress := idle;
     ocrResult := None; gptResult := None |}.

(** The value [processCompleteImage] resolves to. *)
Record Both : Type := {
  both_ocrResult : option Json;
  both_gptResult : option Json
}.

Definition processCompleteImage (file : File) (templateId : option JsNumber)
    (opts : option OCROptions) (onProgress : option (string * Z -> Result unit))
    : M (World * State) Both :=
  setState (fun _ =>
    {| loading := true; error := None; progress := uploading;
       ocrResult := None; gptResult := None |}) ;;;
  try_catch
    (call_opt onProgress ("frext-apiに画像をアップロード中...", 10%Z) ;;;
     setState (fun prev =>
       {| loading := loading prev; error := error prev; progress := ocr;
          ocrResult := ocrResult prev; gptResult := gptResult prev |}) ;;;
     call_opt onProgress ("OCR処理中...", 30%Z) ;;;
     ocrResponse <- liftW (processOCR
       {| image := file; ocr_templateId := templateId; options := opts |}) ;;
     ocrSucceeded <- success_and_data ocrResponse ;;
     if negb ocrSucceeded
     then throw_response_error ocrResponse "OCR処理に失敗しました"
     else
       ocrData <- getProp ocrResponse "data" ;;
       setState (fun prev =>
         {| loading := loading prev; error := error prev; progress := gpt;
            ocrResult := or_null ocrData;
            gptResult := gptResult prev |}) ;;;
       call_opt onProgress ("AI分析中...", 70%Z) ;;;
       gptResponse <- liftW (processGPT
         {| gpt_ocrResult := ocrData; gpt_templateId := templateId;
            customPrompt := None |}) ;;
       gptSucceeded <- success_and_data gptResponse ;;
       if negb gptSucceeded
       then throw_response_error gptResponse "GPT処理に失敗しました"
       else
         gptData <- getProp gptResponse "data" ;;
         setState (fun _ =>
           {| loading := false; error := None; progress := complete;
              ocrResult := ocrData; gptResult := gptData |}) ;;;
         call_opt onProgress ("処理完了", 100%Z) ;;;
         ret {| both_ocrResult := ocrData; both_gptResult := gptData |})
    (fun error =>
       let errorMessage := message_or error "処理に失敗しました" in
       setState (fun _ =>
         {| loading := false; error := Some errorMessage; progress := idle;
            ocrResult := None; gptResult := None |}) ;;;
       throw error).

Definition reset : M (World * State) unit := setState (fun _ => initial).

End useCompleteProcess.

Module useTemplates.

Record State : Type := {
  templates : Json;
  loading : bool;
  error : option string
}.

Definition initial : State :=
  {| templates := JArr []; loading := false; error := None |}.

Definition setTemplates (v : Json) : M (World * State) unit :=
  setState (fun s => {| templates := v; loading := loading s; error := error s |}).

Definition setLoading (b : bool) : M (World * State) unit :=
  setState (fun s => {| templates := templates s; loading := b; error := error s |}).

Definition setError (e : option string) : M (World * State) unit :=
  setState (fun s => {| templates := templates s; loading := loading s; error := e |}).

Definition fetchTemplates : M (World * State) unit :=
  setLoading true ;;;
  setError None ;;;
  try_finally
    (try_catch
       (response <- liftW getTemplates ;;
        succeeded <- success_and_data response ;;
        if succeeded
        then
          d <- getProp response "data" ;;
          setTemplates (or_else d JNull)
        else throw_response_error response "テンプレートの取得に失敗しました")
       (fun error =>
          setError (Some (message_or error "テンプレートの取得に失敗しました"))))
    (setLoading false).

End useTemplates.

Module useUserProfile.

Record State : Type := {
  user : option Json;
  loading : bool;
  error : option string
}.

Definition initial : State := {| user := None; loading := false; error := None |}.

Definition setUser (v : option Json) : M (World * State) unit :=
  setState (fun s => {| user := v; loading := loading s; error := error s |}).

Definition setLoading (b : bool) : M (World * State) unit :=
  setState (fun s => {| user := user s; loading := b; error := error s |}).

Definition setError (e : option string) : M (World * State) unit :=
  setState (fun s => {| user := user s; loading := loading s; error := e |}).

Definition fetchProfile : M (World * State) unit :=
  setLoading true ;;;
  setError None ;;;
  try_finally
    (try_catch
       (response <- liftW getUserProfile ;;
        succeeded <- success_and_data response ;;
        if succeeded
        then
          d <- getProp response "data" ;;
          setUser d
        else throw_response_error response "ユーザー情報の取得に失敗しました")
       (fun error =>
          setError (Some (message_or error "ユーザー情報の取得に失敗しました"))))
    (setLoading false).

End useUserProfile.

Module useLocalStorage.
Section Codec.

(** The platform's [JSON.parse] ([None]: it throws a [SyntaxError]) and
    [JSON.stringify]. *)
Variable JSON_parse : string -> option Json.
Variable JSON_stringify : Json -> string.

Definition parse {S : Type} (text : string) : M S Json :=
  match JSON_parse text with
  | Some v => ret v
  | None => throw (ErrorObj "SyntaxError" "Unexpected token in JSON")
  end.

(** The lazy initial state of [useState]: [storedValue] on mount. *)
Definition initialState (key : string) (initialValue : Json) : M World Json :=
  try_catch
    (window <- gets hasWindow ;;
     if window
     then
       item <- localStorage_getItem ("frext_" +:+ key) ;;
       match item with
       | None | Some "" => ret initialValue
       | Some text => parse text
       end
     else ret initialValue)
    (fun _ => ret initialValue).

(** The argument of [setValue]: a value, or a function of the stored one. *)
Inductive SetArg : Type :=
| Value (v : Json)
| Updater (f : Json -> Result Json).

Definition setValue (key : string) (value : SetArg) : M (World * Json) unit :=
  try_catch
    (valueToStore <-
       match value with
       | Value v => ret v
       | Updater f => storedValue <- gets snd ;; of_result (f storedValue)
       end ;;
     setState (fun _ => valueToStore) ;;;
     window <- liftW (gets hasWindow) ;;
     if window
     then liftW (localStorage_setItem ("frext_" +:+ key) (JSON_stringify valueToStore))
     else ret tt)
    (fun _ => ret tt).

Definition removeValue (key : string) (initialValue : Json) : M (World * Json) unit :=
  try_catch
    (setState (fun _ => initialValue) ;;;
     window <- liftW (gets hasWindow) ;;
     if window
     then liftW (localStorage_removeItem ("frext_" +:+ key))
     else ret tt)
    (fun _ => ret tt).

End Codec.
End useLocalStorage.

(** ** useLocalStorage when the storage refuses access

    [localStorage] above always answers.  A browser may refuse: reading
    [window.localStorage] throws a [SecurityError] where storage is blocked,
    and [setItem] throws a [QuotaExceededError] where it is full.  Each
    operation of [useLocalStorage] makes one access; here it is also given
    [refusal], the error this access throws, if it throws.  Without a
    refusal the operations are those of [useLocalStorage]. *)
Module StorageFailure.
Section Codec.

Variable JSON_parse : string -> option Json.
Variable JSON_stringify : Json -> string.

(** An access to [window.localStorage]. *)
Definition access {A : Type} (refusal : option Thrown) (m : M World A) : M World A :=
  match refusal with
  | Some e => throw e
  | None => m
  end.

Definition initialState_refused (refusal : option Thrown) (key : string)
    (initialValue : Json) : M World Json :=
  try_catch
    (window <- gets hasWindow ;;
     if window
     then
       item <- access refusal (localStorage_getItem ("frext_" +:+ key)) ;;
       match item with
       | None | Some "" => ret initialValue
       | Some text => useLocalStorage.parse JSON_parse text
       end
     else ret initialValue)
    (fun _ => ret initialValue).

Definition setValue_refused (refusal : option Thrown) (key : string)
    (value : useLocalStorage.SetArg) : M (World * Json) unit :=
  try_catch
    (valueToStore <-
       match value with
       | useLocalStorage.Value v => ret v
       | useLocalStorage.Updater f => storedValue <- gets snd ;; of_result (f storedValue)
       end ;;
     setState (fun _ => valueToStore) ;;;
     window <- liftW (gets hasWindow) ;;
     if window
     then liftW (access refusal
                   (localStorage_setItem ("frext_" +:+ key) (JSON_stringify valueToStore)))
     else ret tt)
    (fun _ => ret tt).

Definition removeValue_refused (refusal : option Thrown) (key : string)
    (initialValue : Json) : M (World * Json) unit :=
  try_catch
    (setState (fun _ => initialValue) ;;;
     window <- liftW (gets hasWindow) ;;
     if window
     then liftW (access refusal (localStorage_removeItem ("frext_" +:+ key)))
     else ret tt)
    (fun _ => ret tt).

End Codec.
End StorageFailure.

Module useDebounce.
Section Hook.

Context {T : Type} `{EqDecision T}.

(** A mounted [useDebounce]: the state cell, the dependency array of the
    last effect run, the timer the effect left pending (due time and the
    value its callback captured), the clock in milliseconds, and every
    value [setDebouncedValue] was called with. *)
Record Instance : Type := {
  debouncedValue : T;
  deps : T * Z;
  timer : option (Z * T);
  now : Z;
  propagated : list T
}.

(** The delay [setTimeout] waits for: the browser takes its argument as a
    32-bit signed integer, so a whole number wraps around modulo [2^32], and
    a negative result counts as 0.  A delay of [2^31] or more (some 24.8
    days) so fires without waiting. *)
Definition timer_delay (delay : Z) : Z :=
  Z.max 0 ((delay + 2 ^ 31) mod 2 ^ 32 - 2 ^ 31).

(** [setTimeout(cb, delay)] at time [t] is due at [t + timer_delay delay]. *)
Definition due_at (t delay : Z) : Z := t + timer_delay delay.

(** First render: [useState(value)], then the effect runs. *)
Definition mount (value : T) (delay : Z) (t : Z) : Instance :=
  {| debouncedValue := value;
     deps := (value, delay);
     timer := Some (due_at t delay, value);
     now := t;
     propagated := [] |}.

(** A later render with [value] and [delay]: when a dependency changed, the
    cleanup clears the old timer and the effect sets a new one. *)
Definition render (value : T) (delay : Z) (i : Instance) : Instance :=
  if decide ((value, delay) = deps i)
  then i
  else
    {| debouncedValue := debouncedValue i;
       deps := (value, delay);
       timer := Some (due_at (now i) delay, value);
       now := now i;
       propagated := propagated i |}.

(** [dt] milliseconds pass: a timer that is due runs its callback, which is
    [setDebouncedValue(value)]. *)
Definition advance (dt : Z) (i : Instance) : Instance :=
  match timer i with
  | Some (due, v) =>
      if (due <=? now i + dt)%Z
      then
        {| debouncedValue := v;
           deps := deps i;
           timer := None;
           now := now i + dt;
           propagated := (propagated i ++ [v])%list |}
      else
        {| debouncedValue := debouncedValue i;
           deps := deps i;
           timer := timer i;
           now := now i + dt;
           propagated := propagated i |}
  | None =>
      {| debouncedValue := debouncedValue i;
         deps := deps i;
         timer := None;
         now := now i + dt;
         propagated := propagated i |}
  end.

(** Unmount: the cleanup clears the timer. *)
Definition unmount (i : Instance) : Instance :=
  {| debouncedValue := debouncedValue i;
     deps := deps i;
     timer := None;
     now := now i;
     propagated := propagated i |}.

(** A sequence of renders, each [dt] after the previous event. *)
Fixpoint run (delay : Z) (changes : list (Z * T)) (i : Instance) : Instance :=
  match changes with
  | [] => i
  | (dt, v) :: rest => run delay rest (render v delay (advance dt i))
  end.

(** Each value differs from the one before it, starting after [prev]. *)
Fixpoint changing (prev : T) (changes : list (Z * T)) : Prop :=
  match changes with
  | [] => True
  | (_, v) :: rest => v ≠ prev ∧ changing v rest
  end.


(** The last value of a sequence that starts with [first]. *)
Definition final (first : T) (changes : list (Z * T)) : T :=
  List.last (List.map snd changes) first.

End Hook.
Arguments Instance : clear implicits.
Arguments timer_delay : simpl never.
End useDebounce.

(** ** What [request] does, as functions of the backend's answer *)

(** The [config] that [request] hands to [fetch]. *)
Definition request_config (c : FrextApiClient) (endpoint : string)
    (options : RequestInit) (w : World) : Request :=
  {| req_url := baseUrl c +:+ endpoint;
     req_method := method options;
     req_body := body options;
     req_headers := default ∅ (headers options) ∪ read_headers (defaultHeaders c) w;
     req_signal_timeout := API_CONFIG_timeout |}.

(** [errorData.message] of a non-2xx response whose body is not [null]: the
    body that fails to parse counts as [{}]. *)
Definition parsed_message (r : Response) : option Json :=
  match json r with
  | BodyJson (JObj fields) => lookup_field "message" fields
  | _ => None
  end.

(** The value thrown inside the [try] block of [request], if any. *)
Definition request_thrown (o : FetchOutcome) : option Thrown :=
  match o with
  | Rejects e => Some e
  | Resolves r =>
      if negb (ok r)
      then
        match json r with
        | BodyJson JNull => Some (null_property_error "message")
        | _ => Some (new_Error (or_else (parsed_message r) (JStr (http_status_message r))))
        end
      else
        match json r with
        | BodyJson JNull => Some (null_property_error "success")
        | BodyJson _ => None
        | BodyRejects e => Some e
        end
  end.

(** The value [request] resolves to. *)
Definition respond (o : FetchOutcome) : Json :=
  match request_thrown o with
  | Some e => request_catch e
  | None =>
      match o with
      | Resolves {| json := BodyJson data |} => data
      | _ => JNull
      end
  end.

(** The ways a request fails: [fetch] rejects (timeout, no network), the
    status is not 2xx, or the body of a 2xx response does not parse or is
    [null]. *)
Definition failed (o : FetchOutcome) : bool :=
  match o with
  | Rejects _ => true
  | Resolves r =>
      negb (ok r) ||
      match json r with
      | BodyJson JNull | BodyRejects _ => true
      | BodyJson _ => false
      end
  end.


(** [v.p] on a value that is not [null]. *)
Definition field (v : Json) (p : string) : option Json :=
  match v with
  | JObj fields => lookup_field p fields
  | _ => None
  end.

(** [response.success && response.data] on a value that is not [null]. *)
Definition envelope_succeeded (response : Json) : bool :=
  truthy_opt (field response "success") && truthy_opt (field response "data").

(** ** Example backends and worlds *)

Definition json_response (code : Z) (text : string) (j : Json) : Response :=
  {| status := code; statusText := text; json := BodyJson j |}.

(** A backend that does the same whatever it is asked. *)
Definition always (o : FetchOutcome) : list Request -> Request -> FetchOutcome :=
  fun _ _ => o.

(** The abort reason of [AbortSignal.timeout(ms)] once the time is up: a
    [DOMException] named [TimeoutError] (DOM Standard, AbortSignal.timeout),
    whose message is the engine's; [fetch] rejects with the abort reason of
    its signal. *)
Definition timeout_reason (message : string) : Thrown :=
  ErrorObj "TimeoutError" message.

(** A backend that never answers in time. *)
Definition silent_server : list Request -> Request -> FetchOutcome :=
  always (Rejects (timeout_reason "signal timed out")).

Definition ocr_data : Json :=
  JObj [("extractedText", JStr "INVOICE 42"); ("confidence", JNum "1");
        ("processingTime", JNum "120")].

(** A backend whose OCR endpoint works and whose other endpoints answer 500. *)
Definition ocr_only_server : list Request -> Request -> FetchOutcome :=
  fun _ rq =>
    if String.eqb (req_url rq) "http://localhost:3001/api/v1/ocr/process"
    then Resolves (json_response 200 "OK"
                     (JObj [("success", JBool true); ("data", ocr_data)]))
    else Resolves (json_response 500 "Internal Server Error" (JObj [])).

(** A backend that rejects every token. *)
Definition unauthorized_server : list Request -> Request -> FetchOutcome :=
  always (Resolves (json_response 401 "Unauthorized"
                      (JObj [("message", JStr "Invalid token")]))).

(** A backend that answers every request with a successful envelope. *)
Definition success_server : list Request -> Request -> FetchOutcome :=
  always (Resolves (json_response 200 "OK"
                      (JObj [("success", JBool true); ("data", ocr_data)]))).

(** A backend that answers every request with status 500 and the given
    error body. *)
Definition error_server (errorData : Json) : list Request -> Request -> FetchOutcome :=
  always (Resolves (json_response 500 "Internal Server Error" errorData)).

(** A codec for the JSON literals [null], [true] and [false]. *)
Definition literal_parse (text : string) : option Json :=
  if String.eqb text "null" then Some JNull
  else if String.eqb text "true" then Some (JBool true)
  else if String.eqb text "false" then Some (JBool false)
  else None.

Definition literal_stringify (v : Json) : string :=
  match v with
  | JBool true => "true"
  | JBool false => "false"
  | _ => "null"
  end.

Definition browser (srv : list Request -> Request -> FetchOutcome)
    (storage : gmap string string) : World :=
  load None srv true storage.

(** ** client.ts: the remaining exported operations *)

(** [response.success && response.data?.token] in [login], on a response
    that is not [null]. *)
Definition login_token (response : Json) : option Json :=
  if truthy_opt (field response "success")
  then
    match field response "data" with
    | None | Some JNull => None
    | Some d => field d "token"
    end
  else field response "success".

(** The application/x-www-form-urlencoded serializer of [URLSearchParams],
    byte by byte: letters, digits and [*-._] stay, a space becomes [+], every
    other byte is percent-encoded with upper-case hexadecimal digits. *)
Definition hex_digit (n : N) : Ascii.ascii :=
  if (n <? 10)%N then Ascii.ascii_of_N (48 + n) else Ascii.ascii_of_N (55 + n).

Definition urlencode_keeps (c : Ascii.ascii) : bool :=
  let n := Ascii.N_of_ascii c in
  ((48 <=? n) && (n <=? 57))%N || ((65 <=? n) && (n <=? 90))%N
  || ((97 <=? n) && (n <=? 122))%N
  || (n =? 42)%N || (n =? 45)%N || (n =? 46)%N || (n =? 95)%N.

Definition urlencode_byte (c : Ascii.ascii) : string :=
  if urlencode_keeps c then String c ""
  else if (Ascii.N_of_ascii c =? 32)%N then "+"
  else "%" +:+ String (hex_digit (Ascii.N_of_ascii c / 16)%N)
                 (String (hex_digit (Ascii.N_of_ascii c mod 16)%N) "").

Fixpoint urlencode (s : string) : string :=
  match s with
  | EmptyString => ""
  | String c rest => urlencode_byte c +:+ urlencode rest
  end.

(** [URLSearchParams.prototype.set]: the first pair named [name] takes the
    value and the others are removed; without such a pair, one is appended. *)
Fixpoint params_set (name value : string) (params : list (string * string))
    : list (string * string) :=
  match params with
  | [] => [(name, value)]
  | (k, v) :: rest =>
      if String.eqb k name
      then (name, value) :: List.filter (fun p => negb (String.eqb (fst p) name)) rest
      else (k, v) :: params_set name value rest
  end.

(** [URLSearchParams.prototype.toString]. *)
Fixpoint params_toString (params : list (string * string)) : string :=
  match params with
  | [] => ""
  | (k, v) :: rest =>
      urlencode k +:+ "=" +:+ urlencode v +:+
      match rest with
      | [] => ""
      | _ :: _ => "&" +:+ params_toString rest
      end
  end.

(** A filter value, and [String(value)]. *)
Inductive FilterValue : Type :=
| FilterNumber (n : JsNumber)
| FilterString (s : string).

Definition FilterValue_String (v : FilterValue) : string :=
  match v with
  | FilterNumber n => n
  | FilterString s => s
  end.

(** The [searchParams] of [getProcessingHistory].  [filters] lists the own
    properties of the object in their order; a property whose value is
    [undefined] is [None]. *)
Definition history_params (page limit : option JsNumber)
    (filters : option (list (string * option FilterValue))) : list (string * string) :=
  let searchParams :=
    [("page", default "1" page); ("limit", default "20" limit)] in
  match filters with
  | Some entries =>
      List.fold_left
        (fun params entry =>
           match snd entry with
           | Some value => params_set (fst entry) (FilterValue_String value) params
           | None => params
           end)
        entries searchParams
  | None => searchParams
  end.

Definition getProcessingHistory (page limit : option JsNumber)
    (filters : option (list (string * option FilterValue))) : M World Json :=
  with_client (fun c =>
    get c ("/history?" +:+ params_toString (history_params page limit filters))).

Definition saveProcessingResult (data : Json) : M World Json :=
  with_client (fun c => post c "/results/save" (Some data)).

Inductive Period : Type := day | week | month.

Definition Period_string (p : Period) : string :=
  match p with
  | day => "day"
  | week => "week"
  | month => "month"
  end.

Definition getUsageStats (period : option Period) : M World Json :=
  with_client (fun c =>
    get c ("/user/usage-stats?period=" +:+ Period_string (default month period))).

(** ** useApi.ts: the form and connection hooks *)

Module useFormState.

(** The form values by field name, and the error text of the fields that
    have one. *)
Record Form : Type := {
  state : gmap string Json;
  errors : gmap string string
}.

Definition initial (initialState : gmap string Json) : Form :=
  {| state := initialState; errors := ∅ |}.

(** [errors[field]] as a condition: present and not the empty string. *)
Definition has_error (field : string) (errors : gmap string string) : bool :=
  match errors !! field with
  | Some e => negb (String.eqb e "")
  | None => false
  end.

(** The [updateField] a render returns.  [useCallback] builds it anew when
    [errors] changes, so the condition reads [rendered], the [errors] of the
    render that returned this callback; the two updaters get the state of
    the time they run, which is [f]. *)
Definition updateField (rendered : gmap string string) (field : string) (value : Json)
    (f : Form) : Form :=
  let f' := {| state := <[field := value]> (state f); errors := errors f |} in
  if has_error field rendered
  then {| state := state f'; errors := delete field (errors f') |}
  else f'.

Definition setFieldError (field error : string) (f : Form) : Form :=
  {| state := state f; errors := <[field := error]> (errors f) |}.

Definition clearErrors (f : Form) : Form :=
  {| state := state f; errors := ∅ |}.

Definition reset (initialState : gmap string Json) (f : Form) : Form :=
  {| state := initialState; errors := ∅ |}.


End useFormState.

Module useApiConnection.

(** [lastChecked] is kept as the millisecond value of the [Date]. *)
Record State : Type := {
  isConnected : bool;
  lastChecked : Z
}.

(** The URL of the health check: the template literal prints an unset
    variable as [undefined]. *)
Definition health_url (w : World) : string :=
  match NEXT_PUBLIC_API_BASE_URL w with
  | Some base => base
  | None => "undefined"
  end +:+ "/api/v1/health".

Definition health_request (w : World) : Request :=
  {| req_url := health_url w;
     req_method := Some "GET";
     req_body := None;
     req_headers := ∅;
     req_signal_timeout := 5000 |}.

(** [date] is what [new Date()] yields when the state is set. *)
Definition checkConnection (date : Z) : M (World * State) bool :=
  try_catch
    (rq <- liftW (gets health_request) ;;
     response <- liftW (fetch rq) ;;
     let connected := ok response in
     setState (fun _ => {| isConnected := connected; lastChecked := date |}) ;;;
     ret connected)
    (fun _ =>
       setState (fun _ => {| isConnected := false; lastChecked := date |}) ;;;
       ret false).

End useApiConnection.

(** ** app/upload/page.tsx: choosing a file *)

Module UploadPage.

(** What the page reads of a [File]. *)
Record PickedFile : Type := {
  name : string;
  size : Z;
  type : string
}.

Inductive Step : Type := upload | ocr | gpt | complete.

Record State : Type := {
  selectedFile : option PickedFile;
  selectedTemplate : string;
  isProcessing : bool;
  error : string;
  step : Step
}.

Definition initial : State :=
  {| selectedFile := None; selectedTemplate := ""; isProcessing := false;
     error := ""; step := upload |}.

Definition allowedTypes : list string :=
  ["image/jpeg"; "image/png"; "image/webp"; "image/heic"].

(** [allowedTypes.includes(file.type)]. *)
Definition validateFileType (file : PickedFile) : bool :=
  existsb (String.eqb (type file)) allowedTypes.

Definition setError (e : string) (s : State) : State :=
  {| selectedFile := selectedFile s; selectedTemplate := selectedTemplate s;
     isProcessing := isProcessing s; error := e; step := step s |}.

Definition setSelectedFile (f : option PickedFile) (s : State) : State :=
  {| selectedFile := f; selectedTemplate := selectedTemplate s;
     isProcessing := isProcessing s; error := error s; step := step s |}.

Section Format.

(** [formatFileSize] computes with floating-point logarithms; only its
    result as a text is used here. *)
Variable formatFileSize : Z -> string.

(** [file] is [event.target.files?.[0]]. *)
Definition handleFileChange (file : option PickedFile) (s : State) : State :=
  match file with
  | Some file =>
      if (10 * 1024 * 1024 <? size file)%Z
      then setError ("ファイルサイズは10MB以下にしてください（現在: "
                     +:+ formatFileSize (size file) +:+ "）") s
      else if negb (validateFileType file)
      then setError "対応している画像ファイル（JPEG, PNG, WebP, HEIC）を選択してください" s
      else setError "" (setSelectedFile (Some file) s)
  | None => s
  end.

End Format.

(** The upload button is [disabled={!selectedFile || isProcessing}]. *)
Definition button_disabled (s : State) : bool :=
  match selectedFile s with
  | Some _ => isProcessing s
  | None => true
  end.

End UploadPage.

(** ** The result page: relative time and the stored result *)

Module ResultPage.

Section Dates.

(** [target.toLocaleDateString('ja-JP')], for a valid time value or for an
    invalid date. *)
Variable toLocaleDateString : option Z -> string.

(** [now] is the time value of [new Date()], [target] the one of
    [new Date(dateString)], [None] when the string is no date ([NaN]).  On
    time values the three divisions under [Math.floor] are exact floor
    divisions. *)
Definition getRelativeTime (now : Z) (target : option Z) : string :=
  match target with
  | None => toLocaleDateString None
  | Some t =>
      let diffMs := (now - t)%Z in
      let diffMinutes := (diffMs / 60000)%Z in
      let diffHours := (diffMs / 3600000)%Z in
      let diffDays := (diffMs / 86400000)%Z in
      if (diffMinutes <? 1)%Z then "たった今"
      else if (diffMinutes <? 60)%Z then pretty diffMinutes +:+ "分前"
      else if (diffHours <? 24)%Z then pretty diffHours +:+ "時間前"
      else if (diffDays <? 30)%Z then pretty diffDays +:+ "日前"
      else toLocaleDateString (Some t)
  end.

End Dates.

(** [result] is [JNull] for [null]. *)
Record State : Type := {
  result : Json;
  isLoading : bool;
  error : string;
  isSaving : bool
}.

Definition initial : State :=
  {| result := JNull; isLoading := true; error := ""; isSaving := false |}.

Definition setResult (v : Json) : M State unit :=
  modify (fun s => {| result := v; isLoading := isLoading s; error := error s;
                      isSaving := isSaving s |}).

Definition setError (e : string) : M State unit :=
  modify (fun s => {| result := result s; isLoading := isLoading s; error := e;
                      isSaving := isSaving s |}).

Definition setIsLoading (b : bool) : M State unit :=
  modify (fun s => {| result := result s; isLoading := b; error := error s;
                      isSaving := isSaving s |}).

Section Load.

Variable JSON_parse : string -> option Json.

(** The effect run on mount, over the session storage of the tab. *)
Definition loadResult (sessionStorage : gmap string string) : M State unit :=
  try_finally
    (try_catch
       (match sessionStorage !! "processingResult" with
        | None | Some "" =>
            setError "処理結果が見つかりません。再度アップロードしてください。"
        | Some storedResult =>
            parsedResult <- useLocalStorage.parse JSON_parse storedResult ;;
            setResult parsedResult
        end)
       (fun _ => setError "結果の読み込み中にエラーが発生しました。"))
    (setIsLoading false).

End Load.

End ResultPage.

(** ** More example backends *)

(** A backend that accepts every login and signup with the token [abc]. *)
Definition login_server : list Request -> Request -> FetchOutcome :=
  always (Resolves (json_response 200 "OK"
    (JObj [("success", JBool true);
           ("data", JObj [("token", JStr "abc");
                          ("user", JObj [("id", JStr "u1"); ("name", JStr "Aki")])])]))).

(** A backend that answers 200 with an envelope that reports a failure. *)
Definition refusing_server : list Request -> Request -> FetchOutcome :=
  always (Resolves (json_response 200 "OK"
    (JObj [("success", JBool false); ("error", JStr "maintenance")]))).

(** ** Sequences of events *)

(** Changes fed to [useDebounce] that come at least the timer's delay after
    the previous event. *)
Definition spaced {T : Type} (delay : Z) (changes : list (Z * T)) : Prop :=
  Forall (fun c => (useDebounce.timer_delay delay <= fst c)%Z) changes.

(** Time does not run backwards. *)
Definition forward {T : Type} (changes : list (Z * T)) : Prop :=
  Forall (fun c => (0 <= fst c)%Z) changes.

(** A file passes both checks of the upload page. *)
Definition acceptable (file : UploadPage.PickedFile) : bool :=
  (UploadPage.size file <=? 10 * 1024 * 1024)%Z && UploadPage.validateFileType file.

(** Successive change events of the file input. *)
Definition handleFileChanges (formatFileSize : Z -> string)
    (events : list (option UploadPage.PickedFile)) (s : UploadPage.State)
    : UploadPage.State :=
  List.fold_left (fun s file => UploadPage.handleFileChange formatFileSize file s) events s.

(** What holds of every [useDebounce] instance reached from [mount] with a
    fixed [delay]: a pending timer carries the value last rendered and is due
    at most the timer's delay from now; without a pending timer the debounced
    value is the value last rendered. *)
Definition settled_or_pending {T : Type} (delay : Z) (i : useDebounce.Instance T) : Prop :=
  snd (useDebounce.deps i) = delay
  /\ match useDebounce.timer i with
     | Some (due, v) =>
         v = fst (useDebounce.deps i)
         /\ (due <= useDebounce.now i + useDebounce.timer_delay delay)%Z
     | None => useDebounce.debouncedValue i = fst (useDebounce.deps i)
     end.

(** * Properties *)

(** ** Running the monad *)

Lemma bind_returns {S A B : Type} (m : M S A) (k : A -> M S B) (s s' : S) (a : A) :
  m s = (Returns a, s') -> bind m k s = k a s'.
Proof. intros Hm. unfold bind. by rewrite Hm. Qed.

Lemma bind_throws {S A B : Type} (m : M S A) (k : A -> M S B) (s s' : S) (e : Thrown) :
  m s = (Throws e, s') -> bind m k s = (Throws e, s').
Proof. intros Hm. unfold bind. by rewrite Hm. Qed.


Lemma call_opt_run {S A : Type} (f : option (A -> Result unit)) (a : A) (s : S) :
  call_opt f a s = (match f with Some g => g a | None => Returns tt end, s).
Proof. destruct f; reflexivity. Qed.

Lemma call_opt_cases {S A : Type} (f : option (A -> Result unit)) (a : A) (s : S) :
  call_opt f a s = (Returns tt, s) \/ exists e : Thrown, call_opt f a s = (Throws e, s).
Proof.
  rewrite call_opt_run. destruct f as [g|]; [|by left].
  destruct (g a) as [[]|e]; [by left|right; by exists e].
Qed.

Lemma setState_run {H : Type} (f : H -> H) (w : World) (h : H) :
  setState f (w, h) = (Returns tt, (w, f h)).
Proof. reflexivity. Qed.


Lemma liftW_returns {H A : Type} (m : M World A) (w w' : World) (h : H) (a : A) :
  m w = (Returns a, w') -> liftW m (w, h) = (Returns a, (w', h)).
Proof. intros Hm. unfold liftW. simpl. by rewrite Hm. Qed.

(** A [catch] block that records a state and rethrows: the state after a
    throw is the recorded one, whatever the [try] block did. *)
Lemma try_catch_rethrow {H A : Type} (body : M (World * H) A) (record : Thrown -> H)
    (s : World * H) :
  try_catch body (fun error => setState (fun _ => record error) ;;; throw error) s
  = match body s with
    | (Returns a, s') => (Returns a, s')
    | (Throws e, s') => (Throws e, (fst s', record e))
    end.
Proof. unfold try_catch. destruct (body s) as [[a|e] s']; reflexivity. Qed.



Lemma getProp_run {S : Type} (v : Json) (p : string) (s : S) :
  v ≠ JNull -> getProp v p s = (Returns (field v p), s).
Proof. intros Hv. destruct v; try reflexivity. contradiction. Qed.

Lemma success_and_data_run {S : Type} (v : Json) (s : S) :
  v ≠ JNull -> success_and_data v s = (Returns (envelope_succeeded v), s).
Proof.
  intros Hv. unfold success_and_data, bind, envelope_succeeded.
  rewrite (getProp_run v "success" s Hv).
  destruct (truthy_opt (field v "success")); simpl.
  - rewrite (getProp_run v "data" s Hv). reflexivity.
  - reflexivity.
Qed.

Lemma throw_response_error_run {S A : Type} (v : Json) (fallback : string) (s : S) :
  v ≠ JNull ->
  @throw_response_error S A v fallback s
  = (Throws (new_Error (or_else (field v "error") (JStr fallback))), s).
Proof.
  intros Hv. unfold throw_response_error, bind.
  rewrite (getProp_run v "error" s Hv). reflexivity.
Qed.

(** What a [catch] block makes of the error thrown for a failed response. *)
Lemma message_or_new_Error (v : Json) (fallback : string) :
  message_or (new_Error v) fallback = new_Error_message v.
Proof. unfold new_Error, new_Error_message. by destruct (toString v). Qed.

(** One step of a hook body that is shown to throw: a callback either
    returns, and the run goes on, or throws, and the run ends there. *)
Ltac callback_step :=
  match goal with
  | |- exists (e : Thrown) (s' : _), bind (call_opt ?f ?a) ?k ?s = (Throws e, s') =>
      let Hc := fresh "Hc" in
      destruct (call_opt_cases f a s) as [Hc|[? Hc]];
      [rewrite (bind_returns _ _ _ _ _ Hc)
      |rewrite (bind_throws _ _ _ _ _ Hc); eexists _, _; reflexivity]
  end.

Ltac state_step :=
  match goal with
  | |- exists (e : Thrown) (s' : _), bind (setState ?f) ?k (?w, ?h) = (Throws e, s') =>
      rewrite (bind_returns _ _ _ _ _ (setState_run f w h))
  end.

(** ** [request] is a total function of the backend's answer *)

Lemma request_catch_not_null (e : Thrown) : request_catch e ≠ JNull.
Proof.
  destruct e as [name message | v]; simpl; [|discriminate].
  destruct (String.eqb name "AbortError"); [discriminate|].
  destruct (includes message "NetworkError" || includes message "Failed to fetch");
    discriminate.
Qed.

Lemma request_catch_failure (e : Thrown) :
  exists message : string, request_catch e = failure message.
Proof.
  destruct e as [name message | v]; simpl; [|by eexists].
  destruct (String.eqb name "AbortError"); [by eexists|].
  destruct (includes message "NetworkError" || includes message "Failed to fetch");
    by eexists.
Qed.

Lemma respond_not_null (o : FetchOutcome) : respond o ≠ JNull.
Proof.
  unfold respond. destruct (request_thrown o) as [e|] eqn:He.
  - apply request_catch_not_null.
  - destruct o as [e|[code text [j|e]]]; simpl in He; try discriminate.
    + destruct (negb _); destruct j; try discriminate.
    + destruct (negb _); discriminate.
Qed.

Lemma request_run (c : FrextApiClient) (endpoint : string) (options : RequestInit)
    (w : World) :
  let config := request_config c endpoint options w in
  request c endpoint options w
  = (Returns (respond (server w (issued w) config)), log_request config w).
Proof.
  unfold request, bind, gets, try_catch, fetch; simpl.
  fold (request_config c endpoint options w).
  set (config := request_config c endpoint options w).
  unfold respond, request_thrown.
  destruct (server w (issued w) config) as [e|[code text js]]; [reflexivity|].
  unfold response_json, parsed_message; simpl.
  destruct (negb _); destruct js as [[| | | | |]|e]; reflexivity.
Qed.


Lemma get_run (c : FrextApiClient) (endpoint : string) (w : World) :
  let config :=
    request_config c endpoint {| method := Some "GET"; body := None; headers := None |} w in
  get c endpoint w = (Returns (respond (server w (issued w) config)), log_request config w).
Proof. apply request_run. Qed.

Lemma post_run (c : FrextApiClient) (endpoint : string) (data : option Json) (w : World) :
  let config :=
    request_config c endpoint
      {| method := Some "POST";
         body := if truthy_opt data then JsonBody <$> data else None;
         headers := None |} w in
  post c endpoint data w = (Returns (respond (server w (issued w) config)), log_request config w).
Proof. apply request_run. Qed.

Lemma client_get_run (endpoint : string) (w : World) :
  exists (response : Json) (w' : World),
    with_client (fun c => get c endpoint) w = (Returns response, w') /\ response ≠ JNull.
Proof.
  unfold with_client. rewrite get_run.
  eexists _, _. split; [reflexivity|apply respond_not_null].
Qed.

Lemma read_headers_update (l : loc) (f : gmap string string -> gmap string string)
    (w : World) :
  read_headers l (snd (update_headers l f w)) = f (read_headers l w).
Proof. unfold read_headers at 1. simpl. by rewrite lookup_insert_eq. Qed.

Lemma delete_union_self (k : string) (m : gmap string string) : delete k m ∪ m = m.
Proof. apply map_subseteq_union, delete_subseteq. Qed.

(** The request [postFormData] issues carries exactly the default headers:
    the copy without [Content-Type] is merged back over the defaults. *)
Lemma postFormData_run (c : FrextApiClient) (endpoint : string) (formData : FormData)
    (w : World) :
  let config :=
    {| req_url := baseUrl c +:+ endpoint;
       req_method := Some "POST";
       req_body := Some (FormBody formData);
       req_headers := read_headers (defaultHeaders c) w;
       req_signal_timeout := API_CONFIG_timeout |} in
  postFormData c endpoint formData w
  = (Returns (respond (server w (issued w) config)), log_request config w).
Proof.
  unfold postFormData, bind, gets; simpl.
  rewrite request_run. unfold request_config; simpl.
  by rewrite delete_union_self.
Qed.

Lemma processOCR_run (rq : OCRRequest) (w : World) :
  exists (response : Json) (w' : World),
    processOCR rq w = (Returns response, w') /\ response ≠ JNull.
Proof.
  unfold processOCR, with_client. rewrite postFormData_run.
  eexists _, _. split; [reflexivity|apply respond_not_null].
Qed.

Lemma processGPT_run (rq : GPTRequest) (w : World) :
  exists (response : Json) (w' : World),
    processGPT rq w = (Returns response, w') /\ response ≠ JNull.
Proof.
  unfold processGPT, with_client. rewrite post_run.
  eexists _, _. split; [reflexivity|apply respond_not_null].
Qed.

(** ** Multipart uploads *)

(** C1 (the code departs from the claim): whenever the default headers hold a
    [Content-Type], the request that [postFormData] issues holds the same
    [Content-Type]; deleting it from the per-call copy has no effect. *)
Theorem postFormData_keeps_content_type (c : FrextApiClient) (endpoint : string)
    (formData : FormData) (w : World) (v : string) :
  read_headers (defaultHeaders c) w !! "Content-Type" = Some v ->
  exists rq : Request,
    issued (snd (postFormData c endpoint formData w)) = (issued w ++ [rq])%list
    /\ req_body rq = Some (FormBody formData)
    /\ req_headers rq !! "Content-Type" = Some v.
Proof.
  intros Hv. rewrite postFormData_run. simpl.
  eexists. split; [reflexivity|]. split; [reflexivity|]. exact Hv.
Qed.

Lemma postFormData_keeps_content_type_witness :
  exists rq : Request,
    issued (snd (postFormData
                   (frextApiClient (browser success_server ∅))
                   "/ocr/process" [("image", FormFile "scan.png")]
                   (browser success_server ∅)))
    = ([] ++ [rq])%list
    /\ req_body rq = Some (FormBody [("image", FormFile "scan.png")])
    /\ req_headers rq !! "Content-Type" = Some "application/json".
Proof.
  apply (postFormData_keeps_content_type
           (frextApiClient (browser success_server ∅))
           "/ocr/process" [("image", FormFile "scan.png")]
           (browser success_server ∅) "application/json").
  vm_compute. reflexivity.
Defined.

(** An OCR upload on the freshly loaded module is sent as
    [application/json]. *)
Example processOCR_content_type :
  let rq := {| image := "scan.png"; ocr_templateId := Some "3"; options := None |} in
  List.map (fun r => (req_url r, req_body r, req_headers r !! "Content-Type"))
    (issued (snd (processOCR rq (browser success_server ∅))))
  = [("http://localhost:3001/api/v1/ocr/process",
      Some (FormBody [("image", FormFile "scan.png"); ("templateId", FormText "3")]),
      Some "application/json")].
Proof. vm_compute. reflexivity. Qed.

(** ** Timeouts *)

(** What the [catch] block does recognise: an error named [AbortError]. *)
Lemma request_abort_error (c : FrextApiClient) (endpoint : string)
    (options : RequestInit) (w : World) (message : string) :
  server w (issued w) (request_config c endpoint options w)
  = Rejects (ErrorObj "AbortError" message) ->
  fst (request c endpoint options w) = Returns (failure timeout_message).
Proof. intros Hs. rewrite request_run. simpl. rewrite Hs. reflexivity. Qed.

(** C2 (the code departs from the claim): when [fetch] rejects with the abort
    reason of [AbortSignal.timeout], which is named [TimeoutError], [request]
    reports the reason's own message, or the connection-failure message when
    that message has its wording, and not the fixed timeout message. *)
Theorem request_timeout_reports_reason (c : FrextApiClient) (endpoint : string)
    (options : RequestInit) (w : World) (message : string) :
  server w (issued w) (request_config c endpoint options w)
  = Rejects (timeout_reason message) ->
  message ≠ timeout_message ->
  fst (request c endpoint options w)
  = Returns (if includes message "NetworkError" || includes message "Failed to fetch"
             then failure network_message
             else failure message)
  /\ fst (request c endpoint options w) ≠ Returns (failure timeout_message).
Proof.
  intros Hs Hne. rewrite request_run. cbn [fst]. rewrite Hs.
  unfold respond. cbn [request_thrown timeout_reason request_catch].
  change (String.eqb "TimeoutError" "AbortError") with false. cbv iota.
  split; [reflexivity|].
  destruct (includes message "NetworkError" || includes message "Failed to fetch").
  - vm_compute. discriminate.
  - intros Heq. apply Hne. by injection Heq.
Qed.

Lemma request_timeout_reports_reason_witness :
  fst (request (frextApiClient (browser silent_server ∅)) "/templates"
         {| method := Some "GET"; body := None; headers := None |}
         (browser silent_server ∅))
  = Returns (if includes "signal timed out" "NetworkError"
                || includes "signal timed out" "Failed to fetch"
             then failure network_message
             else failure "signal timed out")
  /\ fst (request (frextApiClient (browser silent_server ∅)) "/templates"
            {| method := Some "GET"; body := None; headers := None |}
            (browser silent_server ∅))
     ≠ Returns (failure timeout_message).
Proof.
  apply (request_timeout_reports_reason (frextApiClient (browser silent_server ∅))
           "/templates" {| method := Some "GET"; body := None; headers := None |}
           (browser silent_server ∅) "signal timed out").
  - reflexivity.
  - vm_compute. discriminate.
Defined.

(** At that input the caller is told [signal timed out]. *)
Example request_timeout_evaluated :
  fst (getTemplates (browser silent_server ∅)) = Returns (failure "signal timed out").
Proof. vm_compute. reflexivity. Qed.

(** ** HTTP error statuses *)

(** C6, the claim as stated fails: an error body whose [message] is the empty
    string is reported with the generic status text, not with its message. *)
Lemma request_empty_message_counterexample :
  let r := json_response 500 "Internal Server Error" (JObj [("message", JStr "")]) in
  let w := browser (always (Resolves r)) ∅ in
  ok r = false
  /\ parsed_message r = Some (JStr "")
  /\ fst (request (frextApiClient w) "/templates"
            {| method := Some "GET"; body := None; headers := None |} w)
     = Returns (failure "HTTP 500: Internal Server Error")
  /\ failure "HTTP 500: Internal Server Error" ≠ failure "".
Proof. vm_compute. repeat split; discriminate. Qed.

(** A message that mentions [NetworkError] is reported as a connection
    failure. *)
Example request_network_wording :
  let w := browser (error_server
                      (JObj [("message", JStr "NetworkError: upstream unreachable")])) ∅ in
  fst (request (frextApiClient w) "/templates"
         {| method := Some "GET"; body := None; headers := None |} w)
  = Returns (failure network_message).
Proof. vm_compute. reflexivity. Qed.

(** A message that cannot be made a string, an object with a member
    [toString] of its own, is reported as the [TypeError] of the conversion. *)
Example request_unprintable_message :
  let w := browser (error_server
                      (JObj [("message", JObj [("toString", JNum "1")])])) ∅ in
  fst (request (frextApiClient w) "/templates"
         {| method := Some "GET"; body := None; headers := None |} w)
  = Returns (failure "Cannot convert object to primitive value").
Proof. vm_compute. reflexivity. Qed.

(** C6, amended: for a non-2xx response whose body is not [null], [request]
    resolves to [{success:false, error:m}], where [m] is the [message] member
    of the parsed body when it is present and truthy, converted to a string,
    and the generic status text otherwise; this for every [m] that contains
    neither [NetworkError] nor [Failed to fetch]. *)
Theorem request_http_error (c : FrextApiClient) (endpoint : string)
    (options : RequestInit) (w : World) (r : Response) (m : string) :
  server w (issued w) (request_config c endpoint options w) = Resolves r ->
  ok r = false ->
  json r ≠ BodyJson JNull ->
  toString (or_else (parsed_message r) (JStr (http_status_message r))) = Some m ->
  includes m "NetworkError" = false ->
  includes m "Failed to fetch" = false ->
  fst (request c endpoint options w) = Returns (failure m).
Proof.
  intros Hs Hok Hbody Hm Hn Hf. rewrite request_run. cbn [fst]. rewrite Hs.
  unfold respond, request_thrown. rewrite Hok. cbn [negb].
  assert (Hthrown :
    match json r with
    | BodyJson JNull => Some (null_property_error "message")
    | _ => Some (new_Error (or_else (parsed_message r) (JStr (http_status_message r))))
    end = Some (ErrorObj "Error" m)).
  { unfold new_Error. rewrite Hm.
    destruct (json r) as [[| | | | |]|e]; try reflexivity. contradiction. }
  rewrite Hthrown. simpl. by rewrite Hn, Hf.
Qed.

Lemma request_http_error_witness :
  fst (request (frextApiClient (browser unauthorized_server ∅)) "/auth/verify"
         {| method := Some "GET"; body := None; headers := None |}
         (browser unauthorized_server ∅))
  = Returns (failure "Invalid token").
Proof.
  apply (request_http_error (frextApiClient (browser unauthorized_server ∅)) "/auth/verify"
           {| method := Some "GET"; body := None; headers := None |}
           (browser unauthorized_server ∅)
           (json_response 401 "Unauthorized" (JObj [("message", JStr "Invalid token")]))
           "Invalid token").
  - reflexivity.
  - reflexivity.
  - discriminate.
  - reflexivity.
  - vm_compute. reflexivity.
  - vm_compute. reflexivity.
Defined.

(** ** The auth sub-client *)

(** [verifyToken] always resolves, and leaves local storage alone. *)
Lemma verifyToken_run (token : string) (w : World) :
  exists (response : Json) (w' : World),
    authApi.verifyToken token w = (Returns response, w')
    /\ response ≠ JNull
    /\ localStorage w' = localStorage w
    /\ hasWindow w' = hasWindow w.
Proof.
  unfold authApi.verifyToken, bind, with_client.
  unfold setAuthToken, update_headers, modify.
  rewrite get_run. simpl.
  eexists _, _. split; [reflexivity|]. split; [apply respond_not_null|]. by split.
Qed.

(** C4 (the code departs from the claim): with a token in local storage,
    [autoLogin] resolves to the [success] member of the verification response
    and the token is still stored afterwards, whatever the verification
    said; the [catch] block that would remove it is never entered. *)
Theorem autoLogin_keeps_token (w : World) (token : string) :
  hasWindow w = true ->
  localStorage w !! "frext_auth_token" = Some token ->
  token ≠ "" ->
  exists (response : Json) (w' : World),
    authApi.verifyToken token w = (Returns response, w')
    /\ authApi.autoLogin w = (Returns (field response "success"), w')
    /\ localStorage w' !! "frext_auth_token" = Some token.
Proof.
  intros Hwin Htok Hne.
  destruct (verifyToken_run token w) as (response & w' & Hrun & Hnn & Hls & _).
  exists response, w'. split; [exact Hrun|]. split.
  - unfold authApi.autoLogin, bind, localStorage_getItem. unfold gets.
    rewrite Hwin. cbn [negb]. rewrite Htok.
    destruct token as [|a s]; [contradiction|].
    unfold try_catch, bind. rewrite Hrun.
    rewrite (getProp_run response "success" w' Hnn). reflexivity.
  - by rewrite Hls.
Qed.

Lemma autoLogin_keeps_token_witness :
  exists (response : Json) (w' : World),
    authApi.verifyToken "stale" (browser unauthorized_server {[ "frext_auth_token" := "stale" ]})
    = (Returns response, w')
    /\ authApi.autoLogin (browser unauthorized_server {[ "frext_auth_token" := "stale" ]})
       = (Returns (field response "success"), w')
    /\ localStorage w' !! "frext_auth_token" = Some "stale".
Proof.
  apply (autoLogin_keeps_token
           (browser unauthorized_server {[ "frext_auth_token" := "stale" ]}) "stale").
  - reflexivity.
  - vm_compute. reflexivity.
  - discriminate.
Defined.

(** At that input the verification fails and [autoLogin] resolves to [false]. *)
Example autoLogin_unauthorized :
  let w := browser unauthorized_server {[ "frext_auth_token" := "stale" ]} in
  fst (authApi.autoLogin w) = Returns (Some (JBool false))
  /\ localStorage (snd (authApi.autoLogin w)) !! "frext_auth_token" = Some "stale".
Proof. vm_compute. split; reflexivity. Qed.

(** C7: [logout] always resolves, with the backend's answer as [request]
    reports it; afterwards the singleton's headers hold no [Authorization]
    and, in a browser, local storage holds no [frext_auth_token].  Nothing
    here depends on the answer. *)
Theorem logout_clears_token (w : World) :
  exists (response : Json) (w' : World),
    authApi.logout w = (Returns response, w')
    /\ read_headers (defaultHeaders (frextApiClient w')) w' !! "Authorization" = None
    /\ (if hasWindow w
        then localStorage w' !! "frext_auth_token" = None
        else localStorage w' = localStorage w).
Proof.
  unfold authApi.logout, bind, with_client. rewrite post_run.
  unfold clearAuthToken, update_headers, modify, gets. simpl.
  destruct (hasWindow w) eqn:Hwin; simpl.
  - eexists _, _. split; [reflexivity|]. simpl. split.
    + unfold read_headers; simpl. rewrite lookup_insert_eq. simpl.
      apply lookup_delete_eq.
    + apply lookup_delete_eq.
  - eexists _, _. split; [reflexivity|]. simpl. split.
    + unfold read_headers; simpl. rewrite lookup_insert_eq. simpl.
      apply lookup_delete_eq.
    + reflexivity.
Qed.

(** A logged-in browser whose backend answers the logout with status 500:
    the token is cleared all the same. *)
Example logout_after_server_error :
  let w0 := browser (error_server (JObj [])) {[ "frext_auth_token" := "abc" ]} in
  let w := snd (setAuthToken (frextApiClient w0) "abc" w0) in
  read_headers API_CONFIG_headers w !! "Authorization" = Some "Bearer abc"
  /\ fst (authApi.logout w) = Returns (failure "HTTP 500: Internal Server Error")
  /\ read_headers API_CONFIG_headers (snd (authApi.logout w)) !! "Authorization" = None
  /\ localStorage (snd (authApi.logout w)) !! "frext_auth_token" = None.
Proof. vm_compute. repeat split; reflexivity. Qed.

(** ** Shared default headers *)

(** C10: every client the constructor builds refers to the header object of
    [API_CONFIG].  So [setAuthToken] on one client writes [Authorization]
    into that object, every other client, built before or after, reads it
    and sends it, and [clearAuthToken] on one client removes it for all. *)
Theorem auth_header_shared (w w0 : World) (base1 base2 : option string)
    (token endpoint : string) :
  let c1 := new_FrextApiClient w base1 in
  let c2 := new_FrextApiClient w0 base2 in
  let w' := snd (setAuthToken c1 token w) in
  let w'' := snd (clearAuthToken c1 w') in
  let options := {| method := Some "GET"; body := None; headers := None |} in
  defaultHeaders c1 = API_CONFIG_headers
  /\ defaultHeaders c2 = API_CONFIG_headers
  /\ heap w' !! API_CONFIG_headers
     = Some (<["Authorization" := "Bearer " +:+ token]> (read_headers API_CONFIG_headers w))
  /\ read_headers (defaultHeaders c2) w' !! "Authorization" = Some ("Bearer " +:+ token)
  /\ req_headers (request_config c2 endpoint options w') !! "Authorization"
     = Some ("Bearer " +:+ token)
  /\ heap w'' !! API_CONFIG_headers
     = Some (delete "Authorization" (read_headers API_CONFIG_headers w'))
  /\ read_headers (defaultHeaders c2) w'' !! "Authorization" = None
  /\ req_headers (request_config c2 endpoint options w'') !! "Authorization" = None.
Proof.
  intros c1 c2 w' w'' options.
  assert (H1 : read_headers API_CONFIG_headers w'
               = <["Authorization" := "Bearer " +:+ token]> (read_headers API_CONFIG_headers w))
    by apply read_headers_update.
  assert (H2 : read_headers API_CONFIG_headers w''
               = delete "Authorization" (read_headers API_CONFIG_headers w'))
    by apply read_headers_update.
  repeat split.
  - simpl. apply lookup_insert_eq.
  - simpl. rewrite H1. apply lookup_insert_eq.
  - simpl. rewrite H1, (left_id ∅ (∪)). apply lookup_insert_eq.
  - simpl. apply lookup_insert_eq.
  - simpl. rewrite H2. apply lookup_delete_eq.
  - simpl. rewrite H2, (left_id ∅ (∪)). apply lookup_delete_eq.
Qed.

(** ** useCompleteProcess *)

Section CompleteProcess.

Import useCompleteProcess.

(** The [try] block of [processCompleteImage] throws when the OCR call
    succeeds and the GPT call fails. *)
Lemma processCompleteImage_body_throws (file : File) (templateId : option JsNumber)
    (opts : option OCROptions) (onProgress : option (string * Z -> Result unit))
    (w w1 w2 : World) (st : State) (ocrResponse gptResponse : Json) :
  processOCR {| image := file; ocr_templateId := templateId; options := opts |} w
  = (Returns ocrResponse, w1) ->
  envelope_succeeded ocrResponse = true ->
  processGPT {| gpt_ocrResult := field ocrResponse "data"; gpt_templateId := templateId;
                customPrompt := None |} w1
  = (Returns gptResponse, w2) ->
  envelope_succeeded gptResponse = false ->
  exists (e : Thrown) (message : string) (w' : World),
    processCompleteImage file templateId opts onProgress (w, st)
    = (Throws e,
       (w', {| loading := false; error := Some message; progress := idle;
               ocrResult := None; gptResult := None |})).
Proof.
  intros Hocr Hok Hgpt Hfail.
  assert (Hn1 : ocrResponse ≠ JNull).
  { destruct (processOCR_run {| image := file; ocr_templateId := templateId; options := opts |} w)
      as (r & w' & Hr & Hn). congruence. }
  assert (Hn2 : gptResponse ≠ JNull).
  { destruct (processGPT_run {| gpt_ocrResult := field ocrResponse "data";
                                gpt_templateId := templateId; customPrompt := None |} w1)
      as (r & w' & Hr & Hn). congruence. }
  unfold processCompleteImage.
  rewrite (bind_returns _ _ _ _ _ (setState_run _ w st)).
  rewrite try_catch_rethrow.
  match goal with
  | |- context [match ?b with _ => _ end] =>
      assert (Hbody : exists (e : Thrown) (s' : World * State), b = (Throws e, s'))
  end.
  { callback_step. state_step. callback_step.
    rewrite (bind_returns _ _ _ _ _ (liftW_returns _ _ _ _ _ Hocr)).
    rewrite (bind_returns _ _ _ _ _ (success_and_data_run _ _ Hn1)).
    rewrite Hok. cbn [negb].
    rewrite (bind_returns _ _ _ _ _ (getProp_run _ _ _ Hn1)).
    state_step. callback_step.
    rewrite (bind_returns _ _ _ _ _ (liftW_returns _ _ _ _ _ Hgpt)).
    rewrite (bind_returns _ _ _ _ _ (success_and_data_run _ _ Hn2)).
    rewrite Hfail. cbn [negb].
    rewrite throw_response_error_run by exact Hn2.
    eexists _, _. reflexivity. }
  destruct Hbody as (e & s' & ->). eexists _, _, _. reflexivity.
Qed.

(** C5: when the OCR call succeeds and the GPT call that follows fails,
    [processCompleteImage] ends with [error] set to a message and with
    [ocrResult] and [gptResult] both [null]; the OCR result is not kept. *)
Theorem processCompleteImage_gpt_failure (file : File) (templateId : option JsNumber)
    (opts : option OCROptions) (onProgress : option (string * Z -> Result unit))
    (w w1 w2 : World) (st : State) (ocrResponse gptResponse : Json) :
  processOCR {| image := file; ocr_templateId := templateId; options := opts |} w
  = (Returns ocrResponse, w1) ->
  envelope_succeeded ocrResponse = true ->
  processGPT {| gpt_ocrResult := field ocrResponse "data"; gpt_templateId := templateId;
                customPrompt := None |} w1
  = (Returns gptResponse, w2) ->
  envelope_succeeded gptResponse = false ->
  exists message : string,
    let st' := snd (snd (processCompleteImage file templateId opts onProgress (w, st))) in
    error st' = Some message /\ ocrResult st' = None /\ gptResult st' = None.
Proof.
  intros Hocr Hok Hgpt Hfail.
  destruct (processCompleteImage_body_throws file templateId opts onProgress
              w w1 w2 st ocrResponse gptResponse Hocr Hok Hgpt Hfail)
    as (e & message & w' & Hrun).
  exists message. rewrite Hrun. simpl. by repeat split.
Qed.




End CompleteProcess.

Lemma processCompleteImage_gpt_failure_witness :
  exists message : string,
    let st' := snd (snd (useCompleteProcess.processCompleteImage "scan.png" None None None
                           (browser ocr_only_server ∅, useCompleteProcess.initial))) in
    useCompleteProcess.error st' = Some message
    /\ useCompleteProcess.ocrResult st' = None
    /\ useCompleteProcess.gptResult st' = None.
Proof.
  apply (processCompleteImage_gpt_failure "scan.png" None None None
           (browser ocr_only_server ∅)
           (snd (processOCR {| image := "scan.png"; ocr_templateId := None; options := None |}
                   (browser ocr_only_server ∅)))
           (snd (processGPT {| gpt_ocrResult := Some ocr_data; gpt_templateId := None;
                               customPrompt := None |}
                   (snd (processOCR {| image := "scan.png"; ocr_templateId := None;
                                       options := None |}
                           (browser ocr_only_server ∅)))))
           useCompleteProcess.initial
           (JObj [("success", JBool true); ("data", ocr_data)])
           (failure "HTTP 500: Internal Server Error")).
  - vm_compute. reflexivity.
  - reflexivity.
  - vm_compute. reflexivity.
  - reflexivity.
Defined.

(** ** The other request-state hooks *)


(** What [fetchTemplates] and [fetchProfile] do with the answer. *)
Lemma fetchTemplates_run (w : World) (st : useTemplates.State) :
  exists (response : Json) (w' : World),
    getTemplates w = (Returns response, w')
    /\ useTemplates.fetchTemplates (w, st)
       = (Returns tt,
          (w',
           if envelope_succeeded response
           then {| useTemplates.templates := or_else (field response "data") JNull;
                   useTemplates.loading := false;
                   useTemplates.error := None |}
           else {| useTemplates.templates := useTemplates.templates st;
                   useTemplates.loading := false;
                   useTemplates.error :=
                     Some (new_Error_message
                            (or_else (field response "error")
                               (JStr "テンプレートの取得に失敗しました"))) |})).
Proof.
  destruct (client_get_run "/templates" w) as (response & w' & Hrun & Hn).
  exists response, w'. split; [exact Hrun|].
  unfold useTemplates.fetchTemplates.
  unfold useTemplates.setLoading at 1.
  rewrite (bind_returns _ _ _ _ _ (setState_run _ w st)).
  unfold useTemplates.setError at 1.
  rewrite (bind_returns _ _ _ _ _ (setState_run _ _ _)).
  unfold try_finally, try_catch. unfold getTemplates.
  rewrite (bind_returns _ _ _ _ _ (liftW_returns _ _ _ _ _ Hrun)).
  rewrite (bind_returns _ _ _ _ _ (success_and_data_run _ _ Hn)).
  destruct (envelope_succeeded response).
  - rewrite (bind_returns _ _ _ _ _ (getProp_run _ _ _ Hn)). reflexivity.
  - rewrite throw_response_error_run by exact Hn.
    by rewrite message_or_new_Error.
Qed.

Lemma fetchProfile_run (w : World) (st : useUserProfile.State) :
  exists (response : Json) (w' : World),
    getUserProfile w = (Returns response, w')
    /\ useUserProfile.fetchProfile (w, st)
       = (Returns tt,
          (w',
           if envelope_succeeded response
           then {| useUserProfile.user := field response "data";
                   useUserProfile.loading := false;
                   useUserProfile.error := None |}
           else {| useUserProfile.user := useUserProfile.user st;
                   useUserProfile.loading := false;
                   useUserProfile.error :=
                     Some (new_Error_message
                            (or_else (field response "error")
                               (JStr "ユーザー情報の取得に失敗しました"))) |})).
Proof.
  destruct (client_get_run "/user/profile" w) as (response & w' & Hrun & Hn).
  exists response, w'. split; [exact Hrun|].
  unfold useUserProfile.fetchProfile.
  unfold useUserProfile.setLoading at 1.
  rewrite (bind_returns _ _ _ _ _ (setState_run _ w st)).
  unfold useUserProfile.setError at 1.
  rewrite (bind_returns _ _ _ _ _ (setState_run _ _ _)).
  unfold try_finally, try_catch. unfold getUserProfile.
  rewrite (bind_returns _ _ _ _ _ (liftW_returns _ _ _ _ _ Hrun)).
  rewrite (bind_returns _ _ _ _ _ (success_and_data_run _ _ Hn)).
  destruct (envelope_succeeded response).
  - rewrite (bind_returns _ _ _ _ _ (getProp_run _ _ _ Hn)). reflexivity.
  - rewrite throw_response_error_run by exact Hn.
    by rewrite message_or_new_Error.
Qed.







(** ** useDebounce *)

Section Debounce.

Import useDebounce.
Context {T : Type} `{EqDecision T}.

Lemma last_cons_default (l : list T) (a d : T) :
  List.last (a :: l) d = List.last l a.
Proof.
  revert a d. induction l as [|b l IH]; intros a d; [reflexivity|].
  change (List.last (a :: b :: l) d) with (List.last (b :: l) d).
  by rewrite (IH b d), (IH b a).
Qed.

Lemma final_cons (prev : T) (dt : Z) (v : T) (rest : list (Z * T)) :
  final prev ((dt, v) :: rest) = final v rest.
Proof. unfold final. cbn [List.map snd]. apply last_cons_default. Qed.


Lemma timer_delay_nonneg (delay : Z) : (0 <= timer_delay delay)%Z.
Proof. unfold timer_delay. lia. Qed.


(** A timer that is due fires: its value is propagated. *)
Lemma advance_due (dt due : Z) (v : T) (i : Instance T) :
  timer i = Some (due, v) -> (due <= now i + dt)%Z ->
  advance dt i
  = {| debouncedValue := v; deps := deps i; timer := None;
       now := (now i + dt)%Z; propagated := (propagated i ++ [v])%list |}.
Proof.
  intros Ht Hle. unfold advance. rewrite Ht.
  destruct (Z.leb_spec due (now i + dt)); [reflexivity|lia].
Qed.

(** A render with a new value replaces the pending timer. *)
Lemma render_change (v : T) (delay : Z) (i : Instance T) :
  v ≠ fst (deps i) ->
  render v delay i
  = {| debouncedValue := debouncedValue i; deps := (v, delay);
       timer := Some (due_at (now i) delay, v); now := now i;
       propagated := propagated i |}.
Proof.
  intros Hv. unfold render. destruct (decide ((v, delay) = deps i)) as [Heq|]; [|reflexivity].
  destruct Hv. by rewrite <- Heq.
Qed.



End Debounce.



(** ** useLocalStorage *)

Section LocalStorage.

Import useLocalStorage.
Variable JSON_parse : string -> option Json.
Variable JSON_stringify : Json -> string.




Lemma setValue_value_run (key : string) (v stored : Json) (w : World) :
  setValue JSON_stringify key (Value v) (w, stored)
  = (Returns tt,
     (if hasWindow w
      then set_localStorage (insert ("frext_" +:+ key) (JSON_stringify v)) w
      else w, v)).
Proof.
  unfold setValue, try_catch, bind, setState, liftW, localStorage_setItem, modify.
  unfold gets. simpl. destruct (hasWindow w); reflexivity.
Qed.

(** C9: in a browser, a value that [JSON.parse] reads back from its
    [JSON.stringify] text is restored by the initial read after [setValue]
    wrote it; and a stored text that [JSON.parse] rejects makes the initial
    read resolve to the default, without throwing. *)
Theorem useLocalStorage_round_trip (key : string) (v initialValue stored : Json)
    (w w0 : World) (text : string) :
  JSON_parse "" = None ->
  JSON_parse (JSON_stringify v) = Some v ->
  hasWindow w = true ->
  localStorage w0 !! ("frext_" +:+ key) = Some text ->
  JSON_parse text = None ->
  (let s' := snd (setValue JSON_stringify key (Value v) (w, stored)) in
   snd s' = v
   /\ localStorage (fst s') !! ("frext_" +:+ key) = Some (JSON_stringify v)
   /\ initialState JSON_parse key initialValue (fst s') = (Returns v, fst s'))
  /\ initialState JSON_parse key initialValue w0 = (Returns initialValue, w0).
Proof.
  intros Hempty Hv Hwin Htext Hbad. split.
  - rewrite setValue_value_run, Hwin. cbn [fst snd].
    split; [reflexivity|]. split.
    + simpl. apply lookup_insert_eq.
    + unfold initialState, try_catch, bind, localStorage_getItem. unfold gets.
      cbn [hasWindow set_localStorage localStorage]. rewrite Hwin.
      replace (localStorage (set_localStorage _ w) !! _)
        with (Some (JSON_stringify v)) by (symmetry; apply lookup_insert_eq).
      destruct (JSON_stringify v) as [|a rest] eqn:Hs; [congruence|].
      unfold parse. rewrite Hv. reflexivity.
  - unfold initialState, try_catch, bind, localStorage_getItem. unfold gets.
    destruct (hasWindow w0); [|reflexivity].
    rewrite Htext. destruct text as [|a rest]; [reflexivity|].
    unfold parse. rewrite Hbad. reflexivity.
Qed.

End LocalStorage.

Lemma useLocalStorage_round_trip_witness :
  (let s' := snd (useLocalStorage.setValue literal_stringify "darkMode"
                    (useLocalStorage.Value (JBool true))
                    (browser success_server ∅, JBool false)) in
   snd s' = JBool true
   /\ localStorage (fst s') !! ("frext_" +:+ "darkMode") = Some (literal_stringify (JBool true))
   /\ useLocalStorage.initialState literal_parse "darkMode" (JBool false) (fst s')
      = (Returns (JBool true), fst s'))
  /\ useLocalStorage.initialState literal_parse "darkMode" (JBool false)
       (browser success_server {[ "frext_darkMode" := "{oops" ]})
     = (Returns (JBool false), browser success_server {[ "frext_darkMode" := "{oops" ]}).
Proof.
  apply (useLocalStorage_round_trip literal_parse literal_stringify "darkMode"
           (JBool true) (JBool false) (JBool false)
           (browser success_server ∅)
           (browser success_server {[ "frext_darkMode" := "{oops" ]}) "{oops").
  - reflexivity.
  - reflexivity.
  - reflexivity.
  - vm_compute. reflexivity.
  - reflexivity.
Defined.

(** ** useLocalStorage when the storage refuses access *)

Section RefusedStorage.

Import useLocalStorage StorageFailure.
Variable JSON_parse : string -> option Json.
Variable JSON_stringify : Json -> string.

(** Without a refusal the operations are those of [useLocalStorage]. *)
Lemma initialState_not_refused (key : string) (initialValue : Json) :
  initialState_refused JSON_parse None key initialValue
  = initialState JSON_parse key initialValue.
Proof. reflexivity. Qed.

Lemma setValue_not_refused (key : string) (value : SetArg) :
  setValue_refused JSON_stringify None key value = setValue JSON_stringify key value.
Proof. reflexivity. Qed.

Lemma removeValue_not_refused (key : string) (initialValue : Json) :
  removeValue_refused None key initialValue = removeValue key initialValue.
Proof. reflexivity. Qed.




End RefusedStorage.

(** ** Error handling across the layer *)



(** * Further properties *)

(** ** The fetch wrapper *)

(** X1: in the request that [request] hands to [fetch], a header given by
    the caller wins over the default of the same name, and every other
    default header is sent as it is. *)
Theorem request_merges_headers (c : FrextApiClient) (endpoint : string)
    (options : RequestInit) (w : World) :
  exists rq : Request,
    issued (snd (request c endpoint options w)) = (issued w ++ [rq])%list
    /\ req_url rq = baseUrl c +:+ endpoint
    /\ forall k : string,
         req_headers rq !! k
         = match default ∅ (headers options) !! k with
           | Some v => Some v
           | None => read_headers (defaultHeaders c) w !! k
           end.
Proof.
  rewrite request_run. cbn [snd log_request issued].
  eexists. split; [reflexivity|]. split; [reflexivity|].
  intros k. cbn [request_config req_headers]. rewrite lookup_union.
  destruct (default ∅ (headers options) !! k);
    destruct (read_headers (defaultHeaders c) w !! k); reflexivity.
Qed.

(** X2: whatever the backend does, [request] calls [fetch] exactly once and
    changes nothing else: local storage, the header objects and the
    environment are as before. *)
Theorem request_fetches_once (c : FrextApiClient) (endpoint : string)
    (options : RequestInit) (w : World) :
  let w' := snd (request c endpoint options w) in
  length (issued w') = S (length (issued w))
  /\ localStorage w' = localStorage w
  /\ heap w' = heap w
  /\ hasWindow w' = hasWindow w
  /\ NEXT_PUBLIC_API_BASE_URL w' = NEXT_PUBLIC_API_BASE_URL w.
Proof.
  rewrite request_run. cbn [snd log_request issued localStorage heap hasWindow
                            NEXT_PUBLIC_API_BASE_URL].
  rewrite length_app. cbn [length]. repeat split. lia.
Qed.

(** X3: the body of a 2xx response is handed back as parsed, whatever its
    shape: nothing checks that it is an envelope. *)
Theorem request_returns_body (c : FrextApiClient) (endpoint : string)
    (options : RequestInit) (w : World) (r : Response) (data : Json) :
  server w (issued w) (request_config c endpoint options w) = Resolves r ->
  ok r = true ->
  json r = BodyJson data ->
  data ≠ JNull ->
  fst (request c endpoint options w) = Returns data.
Proof.
  intros Hs Hok Hj Hn. rewrite request_run. cbn [fst]. rewrite Hs.
  unfold respond, request_thrown. rewrite Hok, Hj. cbn [negb].
  destruct r as [code text js]. cbn [json] in Hj. subst js.
  destruct data; try reflexivity. contradiction.
Qed.

Lemma request_returns_body_witness :
  fst (request (frextApiClient (browser (always (Resolves (json_response 200 "OK" (JStr "pong")))) ∅))
         "/health" {| method := Some "GET"; body := None; headers := None |}
         (browser (always (Resolves (json_response 200 "OK" (JStr "pong")))) ∅))
  = Returns (JStr "pong").
Proof.
  apply (request_returns_body _ _ _ _ (json_response 200 "OK" (JStr "pong")) (JStr "pong")).
  - reflexivity.
  - reflexivity.
  - reflexivity.
  - discriminate.
Defined.

(** X4: when [fetch] rejects with an error that is not named [AbortError]
    and whose message contains [Failed to fetch] or [NetworkError],
    [request] reports the fixed connection-failure message. *)
Theorem request_network_failure (c : FrextApiClient) (endpoint : string)
    (options : RequestInit) (w : World) (name message : string) :
  server w (issued w) (request_config c endpoint options w)
  = Rejects (ErrorObj name message) ->
  name ≠ "AbortError" ->
  includes message "NetworkError" || includes message "Failed to fetch" = true ->
  fst (request c endpoint options w) = Returns (failure network_message).
Proof.
  intros Hs Hname Hmsg. rewrite request_run. cbn [fst]. rewrite Hs.
  unfold respond. cbn [request_thrown request_catch].
  destruct (String.eqb_spec name "AbortError") as [Heq|_]; [contradiction|].
  by rewrite Hmsg.
Qed.

Lemma request_network_failure_witness :
  fst (request (frextApiClient (browser (always (Rejects (ErrorObj "TypeError" "Failed to fetch"))) ∅))
         "/templates" {| method := Some "GET"; body := None; headers := None |}
         (browser (always (Rejects (ErrorObj "TypeError" "Failed to fetch"))) ∅))
  = Returns (failure network_message).
Proof.
  apply (request_network_failure _ _ _ _ "TypeError" "Failed to fetch").
  - reflexivity.
  - discriminate.
  - vm_compute. reflexivity.
Defined.

(** ** Uploads and the history query *)

(** X5: the two places that send a template id disagree on 0.  The upload
    form tests the id for truthiness, so [processOCR] sends a [templateId]
    field, the id as [toString] prints it, for every id but 0 (and [NaN]),
    for which the form is the one of no id; the history query tests it
    against [undefined], so it sends [templateId=0] like any other id. *)
Theorem templateId_zero (file : File) (opts : option OCROptions) (w : World)
    (page limit : option JsNumber) (id : JsNumber) :
  (exists rq : Request,
     issued (snd (processOCR {| image := file; ocr_templateId := Some id; options := opts |} w))
     = (issued w ++ [rq])%list
     /\ req_body rq
        = Some (FormBody
                  ([("image", FormFile file)]
                   ++ (if Number_truthy id then [("templateId", FormText id)] else [])
                   ++ match opts with
                      | Some o => [("options", FormOptions o)]
                      | None => []
                      end)%list))
  /\ processOCR {| image := file; ocr_templateId := Some "0"; options := opts |} w
     = processOCR {| image := file; ocr_templateId := None; options := opts |} w
  /\ history_params page limit (Some [("templateId", Some (FilterNumber id))])
     = (history_params page limit None ++ [("templateId", id)])%list.
Proof.
  split; [|split; reflexivity].
  unfold processOCR, with_client. rewrite postFormData_run.
  cbn [snd log_request issued]. eexists. split; reflexivity.
Qed.

Lemma params_set_fresh (name value : string) (params : list (string * string)) :
  name ∉ List.map fst params ->
  params_set name value params = (params ++ [(name, value)])%list.
Proof.
  induction params as [|[k v] rest IH]; intros Hfresh; [reflexivity|].
  cbn [params_set]. cbn [List.map fst] in Hfresh.
  apply not_elem_of_cons in Hfresh as [Hne Hrest].
  destruct (String.eqb_spec k name) as [->|_]; [contradiction|].
  cbn [app]. by rewrite IH.
Qed.

(** The filters that are set, as query parameters. *)
Lemma history_fold (entries : list (string * option FilterValue))
    (params : list (string * string)) :
  NoDup (List.map fst entries) ->
  (forall k : string, k ∈ List.map fst entries -> k ∉ List.map fst params) ->
  List.fold_left
    (fun params entry =>
       match snd entry with
       | Some value => params_set (fst entry) (FilterValue_String value) params
       | None => params
       end) entries params
  = (params ++ omap (fun entry => pair (fst entry) <$> (FilterValue_String <$> snd entry))
                 entries)%list.
Proof.
  revert params. induction entries as [|[k [v|]] rest IH]; intros params Hnd Hfresh.
  - cbn. by rewrite app_nil_r.
  - cbn [List.fold_left fst snd omap List.map] in *.
    apply NoDup_cons in Hnd as [Hk Hnd].
    rewrite params_set_fresh by (apply Hfresh; left).
    rewrite IH; [|exact Hnd|].
    + cbn. by rewrite <- app_assoc.
    + intros k' Hk'. rewrite List.map_app. cbn [List.map fst].
      rewrite elem_of_app, list_elem_of_singleton. intros [Hin| ->].
      * revert Hin. apply Hfresh. by right.
      * contradiction.
  - cbn [List.fold_left fst snd omap List.map] in *.
    apply NoDup_cons in Hnd as [Hk Hnd].
    rewrite IH; [reflexivity|exact Hnd|].
    intros k' Hk'. apply Hfresh. by right.
Qed.

(** X6: [getProcessingHistory] issues one GET whose query starts with
    [page] and [limit] (1 and 20 when not given) and continues with the
    filters that are not [undefined], in the order of the object, each
    name and value form-urlencoded; this for filters whose names are
    distinct and are neither [page] nor [limit]. *)
Theorem getProcessingHistory_query (page limit : option JsNumber)
    (entries : list (string * option FilterValue)) (w : World) :
  NoDup (List.map fst entries) ->
  "page" ∉ List.map fst entries ->
  "limit" ∉ List.map fst entries ->
  exists rq : Request,
    issued (snd (getProcessingHistory page limit (Some entries) w))
    = (issued w ++ [rq])%list
    /\ req_method rq = Some "GET"
    /\ req_url rq
       = baseUrl (frextApiClient w) +:+ "/history?" +:+
         params_toString
           ([("page", default "1" page); ("limit", default "20" limit)]
            ++ omap (fun entry => pair (fst entry) <$> (FilterValue_String <$> snd entry))
                 entries)%list.
Proof.
  intros Hnd Hpage Hlimit.
  unfold getProcessingHistory, with_client. rewrite get_run.
  cbn [snd log_request issued]. eexists. split; [reflexivity|].
  split; [reflexivity|]. cbn [request_config req_url].
  unfold history_params. rewrite history_fold; [reflexivity|exact Hnd|].
  intros k Hk. cbn [List.map fst].
  rewrite !not_elem_of_cons. split; [|split; [|apply not_elem_of_nil]].
  - intros ->. contradiction.
  - intros ->. contradiction.
Qed.

Lemma getProcessingHistory_query_witness :
  exists rq : Request,
    issued (snd (getProcessingHistory (Some "2") None
                   (Some [("templateId", Some (FilterNumber "3")); ("dateFrom", None);
                          ("status", Some (FilterString "completed ok"))])
                   (browser success_server ∅)))
    = ([] ++ [rq])%list
    /\ req_method rq = Some "GET"
    /\ req_url rq
       = baseUrl (frextApiClient (browser success_server ∅)) +:+ "/history?" +:+
         params_toString
           ([("page", default "1" (Some "2")); ("limit", default "20" None)]
            ++ omap (fun entry => pair (fst entry) <$> (FilterValue_String <$> snd entry))
                 [("templateId", Some (FilterNumber "3")); ("dateFrom", None);
                  ("status", Some (FilterString "completed ok"))])%list.
Proof.
  apply (getProcessingHistory_query (Some "2") None
           [("templateId", Some (FilterNumber "3")); ("dateFrom", None);
            ("status", Some (FilterString "completed ok"))]
           (browser success_server ∅)).
  - refine (bool_decide_unpack _ _). vm_compute. exact I.
  - refine (bool_decide_unpack _ _). vm_compute. exact I.
  - refine (bool_decide_unpack _ _). vm_compute. exact I.
Defined.

(** The URL of that query. *)
Example getProcessingHistory_url :
  List.map req_url
    (issued (snd (getProcessingHistory (Some "2") None
                    (Some [("templateId", Some (FilterNumber "3")); ("dateFrom", None);
                           ("status", Some (FilterString "completed ok"))])
                    (browser success_server ∅))))
  = ["http://localhost:3001/api/v1/history?page=2&limit=20&templateId=3&status=completed+ok"].
Proof. vm_compute. reflexivity. Qed.

(** A page number past the plain decimals: its [+] is percent-encoded. *)
Example getProcessingHistory_large_page :
  List.map req_url
    (issued (snd (getProcessingHistory (Some "1e+21") None None (browser success_server ∅))))
  = ["http://localhost:3001/api/v1/history?page=1e%2B21&limit=20"].
Proof. vm_compute. reflexivity. Qed.

(** ** Logging in and out *)

(** The request [login] sends. *)
Lemma login_request_run (email password : string) (w : World) :
  exists (response : Json) (w1 : World),
    with_client (fun c =>
      post c "/auth/login"
        (Some (JObj [("email", JStr email); ("password", JStr password)]))) w
    = (Returns response, w1)
    /\ response ≠ JNull
    /\ heap w1 = heap w
    /\ localStorage w1 = localStorage w
    /\ hasWindow w1 = hasWindow w
    /\ NEXT_PUBLIC_API_BASE_URL w1 = NEXT_PUBLIC_API_BASE_URL w.
Proof.
  unfold with_client. rewrite post_run.
  eexists _, _. split; [reflexivity|]. split; [apply respond_not_null|]. by repeat split.
Qed.

(** The token [login] finds in a response, as the code computes it. *)
Lemma login_token_run {S A : Type} (response : Json) (k : option Json -> M S A) (s : S) :
  response ≠ JNull ->
  (success <- getProp response "success" ;;
   token <- (if truthy_opt success
             then data <- getProp response "data" ;; getPropOpt data "token"
             else ret success) ;;
   k token) s
  = k (login_token response) s.
Proof.
  intros Hn. rewrite (bind_returns _ _ _ _ _ (getProp_run _ _ _ Hn)).
  unfold login_token. destruct (truthy_opt (field response "success")); [|reflexivity].
  unfold bind at 1. unfold bind at 1. rewrite (getProp_run _ _ _ Hn).
  destruct (field response "data") as [[| | | | |]|]; reflexivity.
Qed.

(** X7: when the login response is successful and carries a truthy token
    that converts to a string, [login] resolves to the response, the header
    object holds [Authorization: Bearer <token>], every later request of the
    singleton that gives no header of that name carries it, and in a browser
    the token is stored under [frext_auth_token]. *)
Theorem login_stores_token (email password : string) (w w1 : World)
    (response token : Json) (text : string) :
  with_client (fun c =>
    post c "/auth/login"
      (Some (JObj [("email", JStr email); ("password", JStr password)]))) w
  = (Returns response, w1) ->
  login_token response = Some token ->
  truthy token = true ->
  toString token = Some text ->
  exists w' : World,
    authApi.login email password w = (Returns response, w')
    /\ read_headers API_CONFIG_headers w' !! "Authorization"
       = Some ("Bearer " +:+ text)
    /\ (forall (endpoint : string) (options : RequestInit),
          default ∅ (headers options) !! "Authorization" = None ->
          req_headers (request_config (frextApiClient w') endpoint options w')
            !! "Authorization"
          = Some ("Bearer " +:+ text))
    /\ (if hasWindow w
        then localStorage w' !! "frext_auth_token" = Some text
        else localStorage w' = localStorage w).
Proof.
  intros Hpost Htoken Htruthy Htext.
  destruct (login_request_run email password w)
    as (response' & w1' & Hpost' & Hn & Hheap & Hls & Hwin & _).
  rewrite Hpost in Hpost'. injection Hpost' as <- <-.
  unfold authApi.login.
  rewrite (bind_returns _ _ _ _ _ Hpost).
  rewrite (login_token_run response _ w1 Hn), Htoken, Htruthy, Htext.
  unfold bind, with_client, setAuthToken, update_headers, modify. unfold gets.
  cbn [hasWindow set_heap]. rewrite Hwin.
  destruct (hasWindow w); eexists; (split; [reflexivity|]).
  - split; [|split].
    + unfold read_headers. cbn. rewrite lookup_insert_eq. cbn. apply lookup_insert_eq.
    + intros endpoint options Hopt. cbn [request_config req_headers].
      rewrite lookup_union, Hopt.
      unfold read_headers. cbn. rewrite lookup_insert_eq. cbn.
      by rewrite lookup_insert_eq.
    + cbn. apply lookup_insert_eq.
  - split; [|split].
    + unfold read_headers. cbn. rewrite lookup_insert_eq. cbn. apply lookup_insert_eq.
    + intros endpoint options Hopt. cbn [request_config req_headers].
      rewrite lookup_union, Hopt.
      unfold read_headers. cbn. rewrite lookup_insert_eq. cbn.
      by rewrite lookup_insert_eq.
    + cbn. exact Hls.
Qed.

Lemma login_stores_token_witness :
  exists w' : World,
    authApi.login "aki@example.com" "secret" (browser login_server ∅)
    = (Returns (JObj [("success", JBool true);
                      ("data", JObj [("token", JStr "abc");
                                     ("user", JObj [("id", JStr "u1");
                                                    ("name", JStr "Aki")])])]), w')
    /\ read_headers API_CONFIG_headers w' !! "Authorization"
       = Some ("Bearer " +:+ "abc")
    /\ (forall (endpoint : string) (options : RequestInit),
          default ∅ (headers options) !! "Authorization" = None ->
          req_headers (request_config (frextApiClient w') endpoint options w')
            !! "Authorization"
          = Some ("Bearer " +:+ "abc"))
    /\ (if hasWindow (browser login_server ∅)
        then localStorage w' !! "frext_auth_token" = Some "abc"
        else localStorage w' = localStorage (browser login_server ∅)).
Proof.
  apply (login_stores_token "aki@example.com" "secret" (browser login_server ∅)
           (snd (with_client (fun c =>
              post c "/auth/login"
                (Some (JObj [("email", JStr "aki@example.com"); ("password", JStr "secret")])))
              (browser login_server ∅)))
           _ (JStr "abc") "abc").
  - vm_compute. reflexivity.
  - reflexivity.
  - reflexivity.
  - reflexivity.
Defined.

(** A token that cannot be made a string makes [login] throw, after the
    request and before anything is set. *)
Example login_unprintable_token :
  let answer :=
    JObj [("success", JBool true);
          ("data", JObj [("token", JObj [("toString", JNull)])])] in
  let w := browser (always (Resolves (json_response 200 "OK" answer))) ∅ in
  fst (authApi.login "aki@example.com" "secret" w) = Throws cannot_convert_error
  /\ read_headers API_CONFIG_headers (snd (authApi.login "aki@example.com" "secret" w))
       !! "Authorization" = None
  /\ localStorage (snd (authApi.login "aki@example.com" "secret" w)) !! "frext_auth_token"
     = None.
Proof. vm_compute. repeat split. Qed.

(** X8: when the login response is not successful, or carries no truthy
    token, [login] resolves to that response and has done nothing but send
    the request: the header object and local storage are as before. *)
Theorem login_failure_changes_nothing (email password : string) (w w1 : World)
    (response : Json) :
  with_client (fun c =>
    post c "/auth/login"
      (Some (JObj [("email", JStr email); ("password", JStr password)]))) w
  = (Returns response, w1) ->
  truthy_opt (login_token response) = false ->
  authApi.login email password w = (Returns response, w1)
  /\ heap w1 = heap w
  /\ localStorage w1 = localStorage w
  /\ length (issued w1) = S (length (issued w)).
Proof.
  intros Hpost Hfalse.
  destruct (login_request_run email password w)
    as (response' & w1' & Hpost' & Hn & Hheap & Hls & Hwin & _).
  rewrite Hpost in Hpost'. injection Hpost' as <- <-.
  assert (Hlen : length (issued w1) = S (length (issued w))).
  { revert Hpost. unfold with_client. rewrite post_run. intros [= _ <-].
    cbn. rewrite length_app. cbn. lia. }
  split; [|by repeat split].
  unfold authApi.login.
  rewrite (bind_returns _ _ _ _ _ Hpost).
  rewrite (login_token_run response _ w1 Hn).
  destruct (login_token response) as [t|]; [|reflexivity].
  cbn [truthy_opt] in Hfalse. by rewrite Hfalse.
Qed.

Lemma login_failure_changes_nothing_witness :
  let w := browser refusing_server ∅ in
  let response := JObj [("success", JBool false); ("error", JStr "maintenance")] in
  let w1 :=
    snd (with_client (fun c =>
           post c "/auth/login"
             (Some (JObj [("email", JStr "aki@example.com"); ("password", JStr "secret")])))
           w) in
  authApi.login "aki@example.com" "secret" w = (Returns response, w1)
  /\ heap w1 = heap w
  /\ localStorage w1 = localStorage w
  /\ length (issued w1) = S (length (issued w)).
Proof.
  apply (login_failure_changes_nothing "aki@example.com" "secret"
           (browser refusing_server ∅)).
  - vm_compute. reflexivity.
  - reflexivity.
Defined.

(** X9: [signup] sends one POST to [/auth/signup], with the user data as
    its body, and resolves to what [request] makes of the backend's answer.
    Unlike [login] it never takes a token from the response: the header
    object and local storage are as before, also when the signup succeeded. *)
Theorem signup_stores_nothing (userData : Json) (w : World) :
  let rq :=
    {| req_url := baseUrl (frextApiClient w) +:+ "/auth/signup";
       req_method := Some "POST";
       req_body := if truthy userData then Some (JsonBody userData) else None;
       req_headers := read_headers API_CONFIG_headers w;
       req_signal_timeout := API_CONFIG_timeout |} in
  fst (authApi.signup userData w) = Returns (respond (server w (issued w) rq))
  /\ issued (snd (authApi.signup userData w)) = (issued w ++ [rq])%list
  /\ heap (snd (authApi.signup userData w)) = heap w
  /\ localStorage (snd (authApi.signup userData w)) = localStorage w.
Proof.
  intros rq.
  assert (Hrq : request_config (frextApiClient w) "/auth/signup"
                  {| method := Some "POST";
                     body := if truthy_opt (Some userData) then JsonBody <$> Some userData
                             else None;
                     headers := None |} w = rq).
  { unfold request_config, rq. cbn [method body headers default truthy_opt].
    rewrite (left_id ∅ (∪)). by destruct (truthy userData). }
  unfold authApi.signup, with_client. rewrite post_run, Hrq. by repeat split.
Qed.

(** A signup that the backend answers with a token leaves the client
    without an [Authorization] header. *)
Example signup_with_token :
  let run := authApi.signup (JObj [("email", JStr "aki@example.com")])
               (browser login_server ∅) in
  fst run
  = Returns (JObj [("success", JBool true);
                   ("data", JObj [("token", JStr "abc");
                                  ("user", JObj [("id", JStr "u1"); ("name", JStr "Aki")])])])
  /\ read_headers API_CONFIG_headers (snd run) !! "Authorization" = None
  /\ localStorage (snd run) !! "frext_auth_token" = None.
Proof. vm_compute. repeat split. Qed.

(** X10: with a stored token, [autoLogin] leaves that token as the
    [Authorization] header of the client whatever the verification said, and
    has sent exactly one request, which carried it. *)
Theorem autoLogin_sets_header (w : World) (token : string) :
  hasWindow w = true ->
  localStorage w !! "frext_auth_token" = Some token ->
  token ≠ "" ->
  exists rq : Request,
    issued (snd (authApi.autoLogin w)) = (issued w ++ [rq])%list
    /\ req_url rq = baseUrl (frextApiClient w) +:+ "/auth/verify"
    /\ req_headers rq !! "Authorization" = Some ("Bearer " +:+ token)
    /\ read_headers API_CONFIG_headers (snd (authApi.autoLogin w)) !! "Authorization"
       = Some ("Bearer " +:+ token).
Proof.
  intros Hwin Htok Hne.
  unfold authApi.autoLogin, bind, localStorage_getItem. unfold gets.
  rewrite Hwin. cbn [negb]. rewrite Htok.
  destruct token as [|a s]; [contradiction|].
  unfold try_catch, bind, authApi.verifyToken, bind, with_client.
  unfold setAuthToken, update_headers, modify.
  rewrite get_run. cbn [fst snd].
  rewrite (getProp_run _ "success" _ (respond_not_null _)).
  cbn [snd log_request issued set_heap].
  eexists. split; [reflexivity|]. split; [reflexivity|]. split.
  - cbn [request_config req_headers headers default]. rewrite (left_id ∅ (∪)).
    unfold read_headers. cbn. rewrite lookup_insert_eq. cbn. apply lookup_insert_eq.
  - unfold read_headers. cbn. rewrite lookup_insert_eq. cbn. apply lookup_insert_eq.
Qed.

Lemma autoLogin_sets_header_witness :
  exists rq : Request,
    issued (snd (authApi.autoLogin
                   (browser unauthorized_server {[ "frext_auth_token" := "stale" ]})))
    = (issued (browser unauthorized_server {[ "frext_auth_token" := "stale" ]}) ++ [rq])%list
    /\ req_url rq
       = baseUrl (frextApiClient (browser unauthorized_server {[ "frext_auth_token" := "stale" ]}))
         +:+ "/auth/verify"
    /\ req_headers rq !! "Authorization" = Some ("Bearer " +:+ "stale")
    /\ read_headers API_CONFIG_headers
         (snd (authApi.autoLogin
                 (browser unauthorized_server {[ "frext_auth_token" := "stale" ]})))
       !! "Authorization"
       = Some ("Bearer " +:+ "stale").
Proof.
  apply (autoLogin_sets_header
           (browser unauthorized_server {[ "frext_auth_token" := "stale" ]}) "stale").
  - reflexivity.
  - vm_compute. reflexivity.
  - discriminate.
Defined.

(** X11: outside a browser, or without a stored token, or with an empty
    one, [autoLogin] resolves to [false] at once: no request is sent and
    nothing changes. *)
Theorem autoLogin_without_token (w : World) :
  hasWindow w = false
  \/ localStorage w !! "frext_auth_token" = None
  \/ localStorage w !! "frext_auth_token" = Some "" ->
  authApi.autoLogin w = (Returns (Some (JBool false)), w).
Proof.
  intros H. unfold authApi.autoLogin, bind, localStorage_getItem. unfold gets.
  destruct (hasWindow w); [|reflexivity]. cbn [negb].
  destruct H as [H|[H|H]]; [discriminate| |]; by rewrite H.
Qed.

Lemma autoLogin_without_token_witness :
  authApi.autoLogin (browser success_server ∅)
  = (Returns (Some (JBool false)), browser success_server ∅).
Proof.
  apply (autoLogin_without_token (browser success_server ∅)).
  right. left. vm_compute. reflexivity.
Defined.

(** X12: [testConnection] never throws.  It resolves to the [success] member
    of the health answer, so to [false] whenever the request failed. *)
Theorem testConnection_result (w : World) :
  let rq := request_config (frextApiClient w) "/health"
              {| method := Some "GET"; body := None; headers := None |} w in
  exists v : option Json,
    fst (testConnection w) = Returns v
    /\ v = field (respond (server w (issued w) rq)) "success"
    /\ (if failed (server w (issued w) rq) then v = Some (JBool false) else True).
Proof.
  intros rq. unfold testConnection, try_catch, bind, with_client, healthCheck.
  rewrite get_run. fold rq. cbn [fst snd].
  rewrite (getProp_run _ "success" _ (respond_not_null _)). cbn [fst].
  eexists. split; [reflexivity|]. split; [reflexivity|].
  destruct (failed _) eqn:Hf; [|exact I].
  assert (Hresp : exists message, respond (server w (issued w) rq) = failure message).
  { revert Hf. destruct (server w (issued w) rq) as [e|[code text js]]; cbn.
    - intros _. apply request_catch_failure.
    - unfold respond, request_thrown; cbn.
      destruct (negb _); cbn.
      + intros _. destruct js as [[| | | | |]|e]; apply request_catch_failure.
      + destruct js as [[| | | | |]|e]; try discriminate; intros _;
          apply request_catch_failure. }
  destruct Hresp as [message ->]. reflexivity.
Qed.

(** ** The connection hook *)

Lemma append_assoc_string (a b c : string) : (a +:+ b) +:+ c = a +:+ (b +:+ c).
Proof. induction a as [|x a IH]; [reflexivity|]. exact (f_equal (String x) IH). Qed.

(** X13: [checkConnection] never throws.  It reports a connection exactly
    when [fetch] resolves with a 2xx status, whatever the body says, records
    the time, and its request carries none of the client's headers. *)
Theorem checkConnection_result (date : Z) (w : World) (st : useApiConnection.State) :
  let rq := useApiConnection.health_request w in
  let connected :=
    match server w (issued w) rq with
    | Resolves r => ok r
    | Rejects _ => false
    end in
  useApiConnection.checkConnection date (w, st)
  = (Returns connected,
     (log_request rq w,
      {| useApiConnection.isConnected := connected;
         useApiConnection.lastChecked := date |}))
  /\ req_headers rq = ∅
  /\ req_signal_timeout rq = 5000%Z.
Proof.
  intros rq connected. split; [|by split].
  unfold useApiConnection.checkConnection, try_catch, bind, liftW, fetch, setState, modify.
  unfold gets. cbn [fst snd]. fold rq. subst connected.
  destruct (server w (issued w) rq) as [e|r]; reflexivity.
Qed.

(** A 200 answer whose envelope reports a failure: [checkConnection] says
    connected, [testConnection] says not. *)
Example connection_checks_disagree :
  let w := load (Some "http://localhost:3001") refusing_server true ∅ in
  fst (useApiConnection.checkConnection 0 (w, {| useApiConnection.isConnected := false;
                                                 useApiConnection.lastChecked := 0 |}))
  = Returns true
  /\ fst (testConnection w) = Returns (Some (JBool false)).
Proof. vm_compute. split; reflexivity. Qed.

(** X14: the health URL of [checkConnection] is the one of the client's
    [healthCheck] exactly when the base URL variable is set and not empty;
    the hook has no fallback to [http://localhost:3001]. *)
Theorem checkConnection_url (w : World) :
  useApiConnection.health_url w = baseUrl (frextApiClient w) +:+ "/health"
  <-> exists base : string, NEXT_PUBLIC_API_BASE_URL w = Some base /\ base ≠ "".
Proof.
  unfold useApiConnection.health_url, frextApiClient, new_FrextApiClient, API_CONFIG_baseUrl.
  cbn [baseUrl default]. unfold API_CONFIG_apiPrefix.
  destruct (NEXT_PUBLIC_API_BASE_URL w) as [base|]; split.
  - intros Heq. exists base. split; [reflexivity|]. intros ->. revert Heq.
    vm_compute. discriminate.
  - intros (base' & [= <-] & Hne).
    destruct (String.eqb_spec base "") as [->|_]; [contradiction|].
    by rewrite append_assoc_string.
  - vm_compute. discriminate.
  - intros (base & Heq & _). discriminate.
Qed.

(** With the variable unset the two requests go to different places. *)
Example checkConnection_url_unset :
  let w := browser success_server ∅ in
  useApiConnection.health_url w = "undefined/api/v1/health"
  /\ List.map req_url (issued (snd (healthCheck (frextApiClient w) w)))
     = ["http://localhost:3001/api/v1/health"].
Proof. vm_compute. split; reflexivity. Qed.

(** ** The generic and the fetching hooks *)

(** X15: [execute] stores and resolves to the data exactly when [success]
    and [data] of the response are both truthy.  Otherwise it resolves to
    [null], clears the data of any earlier call and stores as error the
    message of the error it threw: [response.error] as a string, the default
    text when that is absent or falsy, or the text of the [TypeError] when it
    cannot be made a string. *)
Theorem execute_outcome (apiCall : M World Json) (w w' : World)
    (st : useFrextApi.ApiState) (response : Json) :
  apiCall w = (Returns response, w') ->
  response ≠ JNull ->
  useFrextApi.execute apiCall (w, st)
  = if envelope_succeeded response
    then (Returns (field response "data"),
          (w', {| useFrextApi.data := field response "data";
                  useFrextApi.loading := false;
                  useFrextApi.error := None |}))
    else (Returns None,
          (w', {| useFrextApi.data := None;
                  useFrextApi.loading := false;
                  useFrextApi.error :=
                    Some (new_Error_message
                            (or_else (field response "error")
                               (JStr "frext-api呼び出しに失敗しました"))) |})).
Proof.
  intros Hcall Hn. unfold useFrextApi.execute.
  rewrite (bind_returns _ _ _ _ _ (setState_run _ w st)).
  unfold try_catch.
  rewrite (bind_returns _ _ _ _ _ (liftW_returns _ _ _ _ _ Hcall)).
  rewrite (bind_returns _ _ _ _ _ (success_and_data_run _ _ Hn)).
  destruct (envelope_succeeded response).
  - rewrite (bind_returns _ _ _ _ _ (getProp_run _ _ _ Hn)).
    rewrite (bind_returns _ _ _ _ _ (setState_run _ _ _)). reflexivity.
  - rewrite throw_response_error_run by exact Hn.
    by rewrite <- (message_or_new_Error _ "Unknown error").
Qed.

Lemma execute_outcome_witness :
  useFrextApi.execute getTemplates
    (browser (always (Resolves (json_response 200 "OK"
                (JObj [("success", JBool true); ("data", JArr [])]))))
       ∅,
     {| useFrextApi.data := None; useFrextApi.loading := false;
        useFrextApi.error := None |})
  = if envelope_succeeded (JObj [("success", JBool true); ("data", JArr [])])
    then (Returns (field (JObj [("success", JBool true); ("data", JArr [])]) "data"),
          (snd (getTemplates
                  (browser (always (Resolves (json_response 200 "OK"
                              (JObj [("success", JBool true); ("data", JArr [])])))) ∅)),
           {| useFrextApi.data := field (JObj [("success", JBool true); ("data", JArr [])]) "data";
              useFrextApi.loading := false;
              useFrextApi.error := None |}))
    else (Returns None,
          (snd (getTemplates
                  (browser (always (Resolves (json_response 200 "OK"
                              (JObj [("success", JBool true); ("data", JArr [])])))) ∅)),
           {| useFrextApi.data := None;
              useFrextApi.loading := false;
              useFrextApi.error :=
                Some (new_Error_message
                        (or_else (field (JObj [("success", JBool true); ("data", JArr [])])
                                    "error")
                           (JStr "frext-api呼び出しに失敗しました"))) |})).
Proof.
  apply (execute_outcome getTemplates
           (browser (always (Resolves (json_response 200 "OK"
                       (JObj [("success", JBool true); ("data", JArr [])])))) ∅)).
  - vm_compute. reflexivity.
  - discriminate.
Defined.

(** A successful envelope whose data is [0] counts as a failure. *)
Example execute_falsy_data :
  let w := browser (always (Resolves (json_response 200 "OK"
                      (JObj [("success", JBool true); ("data", JNum "0")])))) ∅ in
  let run := useFrextApi.execute getTemplates (w, useFrextApi.initial) in
  fst run = Returns None
  /\ useFrextApi.error (snd (snd run)) = Some "frext-api呼び出しに失敗しました".
Proof. vm_compute. split; reflexivity. Qed.

(** X16: [fetchTemplates] never throws and ends with [loading] off.  A
    successful answer replaces the templates and clears the error; a failed
    one keeps the templates loaded before and records the message of the
    error thrown for it: [response.error] as a string, or the default text
    when that is absent or falsy. *)
Theorem fetchTemplates_outcome (w : World) (st : useTemplates.State) :
  exists (response : Json) (w' : World),
    getTemplates w = (Returns response, w')
    /\ useTemplates.fetchTemplates (w, st)
       = (Returns tt,
          (w',
           if envelope_succeeded response
           then {| useTemplates.templates := or_else (field response "data") JNull;
                   useTemplates.loading := false;
                   useTemplates.error := None |}
           else {| useTemplates.templates := useTemplates.templates st;
                   useTemplates.loading := false;
                   useTemplates.error :=
                     Some (new_Error_message
                            (or_else (field response "error")
                               (JStr "テンプレートの取得に失敗しました"))) |})).
Proof. apply fetchTemplates_run. Qed.

(** X17: [fetchProfile] never throws and ends with [loading] off.  A
    successful answer replaces the user and clears the error; a failed one
    keeps the user loaded before and records the message of the error thrown
    for it: [response.error] as a string, or the default text when that is
    absent or falsy. *)
Theorem fetchProfile_outcome (w : World) (st : useUserProfile.State) :
  exists (response : Json) (w' : World),
    getUserProfile w = (Returns response, w')
    /\ useUserProfile.fetchProfile (w, st)
       = (Returns tt,
          (w',
           if envelope_succeeded response
           then {| useUserProfile.user := field response "data";
                   useUserProfile.loading := false;
                   useUserProfile.error := None |}
           else {| useUserProfile.user := useUserProfile.user st;
                   useUserProfile.loading := false;
                   useUserProfile.error :=
                     Some (new_Error_message
                            (or_else (field response "error")
                               (JStr "ユーザー情報の取得に失敗しました"))) |})).
Proof. apply fetchProfile_run. Qed.

(** ** More on useLocalStorage *)

Section LocalStorageMore.

Import useLocalStorage.
Variable JSON_parse : string -> option Json.
Variable JSON_stringify : Json -> string.

Lemma removeValue_run (key : string) (initialValue stored : Json) (w : World) :
  removeValue key initialValue (w, stored)
  = (Returns tt,
     (if hasWindow w then set_localStorage (delete ("frext_" +:+ key)) w else w,
      initialValue)).
Proof.
  unfold removeValue, try_catch, bind, setState, liftW, localStorage_removeItem, modify.
  unfold gets. simpl. destruct (hasWindow w); reflexivity.
Qed.

Lemma frext_key_inj (k k' : string) : "frext_" +:+ k = "frext_" +:+ k' -> k = k'.
Proof. cbn. intros Heq. by injection Heq. Qed.

(** X18: after [removeValue] the hook's value is the default, the key is gone
    from local storage, and a hook mounted next starts from the default,
    whatever was stored before. *)
Theorem removeValue_restores_default (key : string) (initialValue stored : Json)
    (w : World) :
  let s' := snd (removeValue key initialValue (w, stored)) in
  snd s' = initialValue
  /\ (if hasWindow w
      then localStorage (fst s') !! ("frext_" +:+ key) = None
      else fst s' = w)
  /\ initialState JSON_parse key initialValue (fst s') = (Returns initialValue, fst s').
Proof.
  rewrite removeValue_run. cbn [fst snd]. split; [reflexivity|].
  destruct (hasWindow w) eqn:Hwin.
  - split; [apply lookup_delete_eq|].
    unfold initialState, try_catch, bind, localStorage_getItem. unfold gets.
    cbn [hasWindow set_localStorage]. rewrite Hwin.
    replace (localStorage (set_localStorage _ w) !! _) with (@None string)
      by (symmetry; apply lookup_delete_eq).
    reflexivity.
  - split; [reflexivity|].
    unfold initialState, try_catch, bind. unfold gets. by rewrite Hwin.
Qed.

Lemma setValue_updater_run (key : string) (f : Json -> Result Json) (stored : Json)
    (w : World) :
  setValue JSON_stringify key (Updater f) (w, stored)
  = match f stored with
    | Returns v => setValue JSON_stringify key (Value v) (w, stored)
    | Throws _ => (Returns tt, (w, stored))
    end.
Proof.
  unfold setValue, try_catch. unfold bind at 1. unfold bind at 1.
  unfold gets, of_result. cbn [snd].
  destruct (f stored) as [v|e]; reflexivity.
Qed.


(** X20: [setValue] and [removeValue] for one key leave what is stored for
    every other key of the hook as it is. *)
Theorem useLocalStorage_other_keys (key key' : string) (value : SetArg)
    (initialValue stored : Json) (w : World) :
  key' ≠ key ->
  localStorage (fst (snd (setValue JSON_stringify key value (w, stored))))
    !! ("frext_" +:+ key')
  = localStorage w !! ("frext_" +:+ key')
  /\ localStorage (fst (snd (removeValue key initialValue (w, stored))))
       !! ("frext_" +:+ key')
     = localStorage w !! ("frext_" +:+ key').
Proof.
  intros Hne.
  assert (Hk : "frext_" +:+ key ≠ "frext_" +:+ key').
  { intros Heq. apply Hne. symmetry. by apply frext_key_inj. }
  split.
  - assert (Hv : forall v,
      localStorage (fst (snd (setValue JSON_stringify key (Value v) (w, stored))))
        !! ("frext_" +:+ key')
      = localStorage w !! ("frext_" +:+ key')).
    { intros v. rewrite setValue_value_run. cbn [fst snd].
      destruct (hasWindow w); [|reflexivity]. by apply lookup_insert_ne. }
    destruct value as [v|f]; [apply Hv|].
    rewrite setValue_updater_run. destruct (f stored) as [v|e]; [apply Hv|reflexivity].
  - rewrite removeValue_run. cbn [fst snd].
    destruct (hasWindow w); [|reflexivity]. by apply lookup_delete_ne.
Qed.

(** X21: where [window] is not defined, [setValue] changes the hook's value
    only: nothing is stored, and a hook mounted next starts from its
    default. *)
Theorem useLocalStorage_without_window (key : string) (v initialValue stored : Json)
    (w : World) :
  hasWindow w = false ->
  setValue JSON_stringify key (Value v) (w, stored) = (Returns tt, (w, v))
  /\ initialState JSON_parse key initialValue w = (Returns initialValue, w).
Proof.
  intros Hwin. rewrite setValue_value_run, Hwin. split; [reflexivity|].
  unfold initialState, try_catch, bind. unfold gets. by rewrite Hwin.
Qed.

End LocalStorageMore.

Lemma useLocalStorage_other_keys_witness :
  localStorage (fst (snd (useLocalStorage.setValue literal_stringify "darkMode"
                            (useLocalStorage.Value (JBool true))
                            (browser success_server {[ "frext_lang" := "null" ]}, JNull))))
    !! ("frext_" +:+ "lang")
  = localStorage (browser success_server {[ "frext_lang" := "null" ]}) !! ("frext_" +:+ "lang")
  /\ localStorage (fst (snd (useLocalStorage.removeValue "darkMode" JNull
                               (browser success_server {[ "frext_lang" := "null" ]}, JNull))))
       !! ("frext_" +:+ "lang")
     = localStorage (browser success_server {[ "frext_lang" := "null" ]}) !! ("frext_" +:+ "lang").
Proof.
  apply (useLocalStorage_other_keys literal_stringify "darkMode" "lang"
           (useLocalStorage.Value (JBool true)) JNull JNull
           (browser success_server {[ "frext_lang" := "null" ]})).
  discriminate.
Defined.

Lemma useLocalStorage_without_window_witness :
  useLocalStorage.setValue literal_stringify "darkMode" (useLocalStorage.Value (JBool true))
    (load None success_server false ∅, JBool false)
  = (Returns tt, (load None success_server false ∅, JBool true))
  /\ useLocalStorage.initialState literal_parse "darkMode" (JBool false)
       (load None success_server false ∅)
     = (Returns (JBool false), load None success_server false ∅).
Proof.
  apply (useLocalStorage_without_window literal_parse literal_stringify "darkMode"
           (JBool true) (JBool false) (JBool false) (load None success_server false ∅)).
  reflexivity.
Defined.

(** The hook's key [auth_token] is the key of the auth sub-client: writing it
    replaces the stored login token by the JSON text. *)
Example useLocalStorage_auth_token :
  let w := browser success_server {[ "frext_auth_token" := "abc" ]} in
  localStorage (fst (snd (useLocalStorage.setValue literal_stringify "auth_token"
                            (useLocalStorage.Value (JBool true)) (w, JNull))))
    !! "frext_auth_token"
  = Some "true".
Proof. vm_compute. reflexivity. Qed.

(** ** More on useDebounce *)

Section DebounceMore.

Import useDebounce.
Context {T : Type} `{EqDecision T}.

(** The value last rendered is the first dependency. *)
Lemma render_deps (v : T) (delay : Z) (i : Instance T) :
  deps (render v delay i) = (v, delay).
Proof.
  unfold render. destruct (decide ((v, delay) = deps i)) as [Heq|]; [by rewrite Heq|reflexivity].
Qed.

Lemma mount_invariant (v : T) (delay t : Z) : settled_or_pending delay (mount v delay t).
Proof. unfold settled_or_pending, mount, due_at. cbn. repeat split. lia. Qed.

Lemma advance_invariant (delay dt : Z) (i : Instance T) :
  (0 <= dt)%Z -> settled_or_pending delay i -> settled_or_pending delay (advance dt i).
Proof.
  intros Hdt [Hdelay Htimer]. unfold settled_or_pending, advance.
  destruct (timer i) as [[due v]|] eqn:Ht.
  - destruct Htimer as [Hv Hdue].
    destruct (Z.leb_spec due (now i + dt)); cbn; rewrite ?Ht; repeat split; try done; lia.
  - cbn. by split.
Qed.

Lemma render_invariant (delay : Z) (v : T) (i : Instance T) :
  settled_or_pending delay i -> settled_or_pending delay (render v delay i).
Proof.
  intros Hinv. unfold render.
  destruct (decide ((v, delay) = deps i)) as [Heq|Hne]; [exact Hinv|].
  unfold settled_or_pending, due_at. cbn. repeat split. lia.
Qed.

Lemma run_invariant (delay : Z) (changes : list (Z * T)) (i : Instance T) :
  forward changes -> settled_or_pending delay i ->
  settled_or_pending delay (run delay changes i)
  /\ fst (deps (run delay changes i)) = final (fst (deps i)) changes.
Proof.
  revert i. induction changes as [|[dt v] rest IH]; intros i Hfw Hinv.
  - split; [exact Hinv|reflexivity].
  - apply Forall_cons in Hfw as [Hdt Hfw]. cbn [fst] in Hdt. cbn [run].
    destruct (IH (render v delay (advance dt i)) Hfw) as [Hinv' Hfinal].
    { by apply render_invariant, advance_invariant. }
    split; [exact Hinv'|].
    rewrite Hfinal, render_deps. cbn [fst].
    unfold final. cbn [List.map snd]. symmetry. apply last_cons_default.
Qed.

(** X22: whatever changes came before and however they were timed, once
    the timer's delay has passed without a render the debounced value is
    the value last rendered.  The timer's delay is [delay] itself when that
    is between 0 and [2^31 - 1], and 0 when it is negative down to [-2^31]. *)
Theorem useDebounce_settles (delay t : Z) (v0 : T) (changes : list (Z * T)) (dt : Z) :
  forward changes ->
  (timer_delay delay <= dt)%Z ->
  debouncedValue (advance dt (run delay changes (mount v0 delay t))) = final v0 changes.
Proof.
  intros Hfw Hdt.
  destruct (run_invariant delay changes (mount v0 delay t) Hfw (mount_invariant v0 delay t))
    as [[Hdelay Htimer] Hfinal].
  cbn [mount deps fst] in Hfinal. rewrite <- Hfinal.
  unfold advance.
  destruct (timer (run delay changes (mount v0 delay t))) as [[due v]|].
  - destruct Htimer as [-> Hdue].
    destruct (Z.leb_spec due (now (run delay changes (mount v0 delay t)) + dt));
      [reflexivity|lia].
  - exact Htimer.
Qed.

(** What a spaced sequence has propagated when its last change is
    rendered: every value but that last one. *)
Lemma run_spaced (delay : Z) (changes : list (Z * T)) (i : Instance T) :
  timer i = Some ((now i + timer_delay delay)%Z, fst (deps i)) ->
  changing (fst (deps i)) changes ->
  spaced delay changes ->
  propagated (run delay changes i)
  = (propagated i ++ List.removelast (fst (deps i) :: List.map snd changes))%list
  /\ timer (run delay changes i)
     = Some ((now (run delay changes i) + timer_delay delay)%Z, final (fst (deps i)) changes).
Proof.
  revert i. induction changes as [|[dt v] rest IH]; intros i Ht Hch Hsp.
  - cbn. rewrite app_nil_r. by split.
  - destruct Hch as [Hv Hch]. apply Forall_cons in Hsp as [Hdt Hsp]. cbn [fst] in Hdt.
    cbn [run]. rewrite final_cons.
    rewrite (advance_due dt _ _ i Ht) by lia.
    rewrite render_change by exact Hv. cbn [now propagated debouncedValue deps timer].
    specialize (IH {| debouncedValue := fst (deps i); deps := (v, delay);
                      timer := Some (due_at (now i + dt) delay, v);
                      now := (now i + dt)%Z;
                      propagated := (propagated i ++ [fst (deps i)])%list |}).
    cbn [timer now deps fst propagated debouncedValue] in IH.
    destruct IH as [Hp Htimer]; [reflexivity|exact Hch|exact Hsp|].
    split; [|exact Htimer].
    rewrite Hp, <- app_assoc. reflexivity.
Qed.

Lemma removelast_final (l : list T) (a : T) :
  (List.removelast (a :: l) ++ [List.last l a])%list = a :: l.
Proof.
  revert a. induction l as [|b l IH]; intros a; [reflexivity|].
  change (a :: (List.removelast (b :: l) ++ [List.last (b :: l) a])%list = a :: b :: l).
  by rewrite (last_cons_default l b a), IH.
Qed.

(** X23: changes that come at least the timer's delay apart are all
    propagated, each once and in their order: the debounce drops nothing
    from a slow sequence. *)
Theorem useDebounce_spaced (delay : Z) (i : Instance T) (first : T)
    (rest : list (Z * T)) (dt : Z) :
  first ≠ fst (deps i) ->
  changing first rest ->
  spaced delay rest ->
  (timer_delay delay <= dt)%Z ->
  propagated (advance dt (run delay rest (render first delay i)))
  = (propagated i ++ first :: List.map snd rest)%list.
Proof.
  intros Hfirst Hch Hsp Hdt.
  destruct (run_spaced delay rest (render first delay i)) as [Hp Ht].
  { rewrite render_change by exact Hfirst. reflexivity. }
  { rewrite render_change by exact Hfirst. exact Hch. }
  { exact Hsp. }
  rewrite (advance_due dt _ _ _ Ht) by lia. cbn [propagated]. rewrite Hp.
  rewrite render_change by exact Hfirst. cbn [propagated deps fst].
  rewrite <- app_assoc. f_equal. apply removelast_final.
Qed.

End DebounceMore.

(** A delay below [-2^31] wraps around to a positive one: the timer waits. *)
Example useDebounce_negative_delay_wraps :
  let delay := (5 - 2 ^ 32)%Z in
  useDebounce.timer_delay delay = 5%Z
  /\ useDebounce.debouncedValue
       (useDebounce.advance 4 (useDebounce.render "a" delay (useDebounce.mount "" delay 0)))
     = ""
  /\ useDebounce.debouncedValue
       (useDebounce.advance 5 (useDebounce.render "a" delay (useDebounce.mount "" delay 0)))
     = "a".
Proof. vm_compute. repeat split. Qed.

Lemma useDebounce_settles_witness :
  useDebounce.debouncedValue
    (useDebounce.advance 300
       (useDebounce.run 300 [(100, "a"); (400, "ab"); (20, "abc")]
          (useDebounce.mount "" 300 0)))
  = useDebounce.final "" [(100, "a"); (400, "ab"); (20, "abc")].
Proof.
  apply (useDebounce_settles 300 0 "" [(100, "a"); (400, "ab"); (20, "abc")] 300).
  - repeat constructor; simpl; lia.
  - vm_compute. discriminate.
Defined.

Lemma useDebounce_spaced_witness :
  useDebounce.propagated
    (useDebounce.advance 300
       (useDebounce.run 300 [(300, "ab"); (450, "abc")]
          (useDebounce.render "a" 300 (useDebounce.mount "" 300 0))))
  = (useDebounce.propagated (useDebounce.mount "" 300 0)
     ++ "a" :: List.map snd [(300, "ab"); (450, "abc")])%list.
Proof.
  apply (useDebounce_spaced 300 (useDebounce.mount "" 300 0) "a"
           [(300, "ab"); (450, "abc")] 300).
  - discriminate.
  - simpl. repeat split; discriminate.
  - repeat constructor; vm_compute; discriminate.
  - vm_compute. discriminate.
Defined.

(** ** useFormState *)


(** In one handler, [setFieldError] and then the [updateField] of the render
    at hand: the error just set stays.  After a render, it is removed. *)
Example updateField_same_handler :
  let f := useFormState.initial ∅ in
  let f1 := useFormState.setFieldError "email" "required" f in
  useFormState.errors
    (useFormState.updateField (useFormState.errors f) "email" (JStr "a@b.c") f1) !! "email"
  = Some "required"
  /\ useFormState.errors
       (useFormState.updateField (useFormState.errors f1) "email" (JStr "a@b.c") f1) !! "email"
     = None.
Proof. vm_compute. split; reflexivity. Qed.

(** ** The upload page *)

Section Upload.

Import UploadPage.
Variable formatFileSize : Z -> string.

(** X25: a chosen file is selected, and the error cleared, exactly when it
    is at most 10 MB (10 MB itself passes) and of an allowed type.  A refused
    file sets an error and leaves the selection as it was, so the upload
    button stays as enabled as before; a cancelled dialog changes nothing. *)
Theorem handleFileChange_outcome (file : PickedFile) (s : State) :
  let s' := handleFileChange formatFileSize (Some file) s in
  (if acceptable file
   then selectedFile s' = Some file /\ error s' = ""
   else selectedFile s' = selectedFile s /\ error s' ≠ ""
        /\ button_disabled s' = button_disabled s)
  /\ selectedTemplate s' = selectedTemplate s
  /\ isProcessing s' = isProcessing s
  /\ step s' = step s
  /\ handleFileChange formatFileSize None s = s.
Proof.
  unfold handleFileChange, acceptable.
  destruct (Z.ltb_spec (10 * 1024 * 1024) (size file)) as [Hbig|Hsmall].
  - destruct (Z.leb_spec (size file) (10 * 1024 * 1024)) as [Hle|_]; [lia|].
    cbn. repeat split. discriminate.
  - destruct (Z.leb_spec (size file) (10 * 1024 * 1024)) as [_|Hgt]; [|lia].
    cbn [andb]. destruct (validateFileType file); cbn; repeat split. discriminate.
Qed.

Lemma handleFileChange_selected (file : PickedFile) (s : State) :
  selectedFile (handleFileChange formatFileSize (Some file) s)
  = if acceptable file then Some file else selectedFile s.
Proof.
  unfold handleFileChange, acceptable.
  destruct (Z.ltb_spec (10 * 1024 * 1024) (size file)) as [Hbig|Hsmall].
  - destruct (Z.leb_spec (size file) (10 * 1024 * 1024)) as [Hle|_]; [lia|reflexivity].
  - destruct (Z.leb_spec (size file) (10 * 1024 * 1024)) as [_|Hgt]; [|lia].
    cbn [andb]. destruct (validateFileType file); reflexivity.
Qed.

(** X26: whatever files are offered one after the other, the selected file
    is always one that passes both checks. *)
Theorem selected_file_acceptable (events : list (option PickedFile)) (s : State) :
  match selectedFile s with
  | Some file => acceptable file = true
  | None => True
  end ->
  match selectedFile (handleFileChanges formatFileSize events s) with
  | Some file => acceptable file = true
  | None => True
  end.
Proof.
  revert s. induction events as [|[file|] events IH]; intros s Hs; [exact Hs| |].
  - apply IH. rewrite handleFileChange_selected.
    destruct (acceptable file) eqn:Hacc; [exact Hacc|exact Hs].
  - apply IH. exact Hs.
Qed.

End Upload.

Lemma selected_file_acceptable_witness :
  match UploadPage.selectedFile
          (handleFileChanges (fun _ => "15 MB")
             [Some {| UploadPage.name := "a.png"; UploadPage.size := 2048;
                      UploadPage.type := "image/png" |};
              Some {| UploadPage.name := "b.pdf"; UploadPage.size := 100;
                      UploadPage.type := "application/pdf" |};
              Some {| UploadPage.name := "c.jpg"; UploadPage.size := 15728640;
                      UploadPage.type := "image/jpeg" |}]
             UploadPage.initial) with
  | Some file => acceptable file = true
  | None => True
  end.
Proof.
  apply (selected_file_acceptable (fun _ => "15 MB")
           [Some {| UploadPage.name := "a.png"; UploadPage.size := 2048;
                    UploadPage.type := "image/png" |};
            Some {| UploadPage.name := "b.pdf"; UploadPage.size := 100;
                    UploadPage.type := "application/pdf" |};
            Some {| UploadPage.name := "c.jpg"; UploadPage.size := 15728640;
                    UploadPage.type := "image/jpeg" |}]
           UploadPage.initial).
  exact I.
Defined.

(** After a good file, a PDF and a 15 MB image: the first file is still
    selected, under the size message of the third. *)
Example refused_files_keep_selection :
  let s := handleFileChanges (fun _ => "15 MB")
             [Some {| UploadPage.name := "a.png"; UploadPage.size := 2048;
                      UploadPage.type := "image/png" |};
              Some {| UploadPage.name := "b.pdf"; UploadPage.size := 100;
                      UploadPage.type := "application/pdf" |};
              Some {| UploadPage.name := "c.jpg"; UploadPage.size := 15728640;
                      UploadPage.type := "image/jpeg" |}]
             UploadPage.initial in
  UploadPage.name <$> UploadPage.selectedFile s = Some "a.png"
  /\ UploadPage.error s = "ファイルサイズは10MB以下にしてください（現在: 15 MB）"
  /\ UploadPage.button_disabled s = false.
Proof. vm_compute. repeat split. Qed.

(** ** The result page *)

Section Result.

Import ResultPage.
Variable toLocaleDateString : option Z -> string.
Variable JSON_parse : string -> option Json.

(** X27: the wording depends on the elapsed milliseconds alone.  A time in
    the future or less than a minute ago is [just now]; then whole minutes
    up to an hour, whole hours up to a day, whole days up to 30 days, and
    the date after that.  The number shown is never 0. *)
Theorem getRelativeTime_thresholds (now t : Z) :
  let diff := (now - t)%Z in
  getRelativeTime toLocaleDateString now (Some t)
  = (if (diff <? 60000)%Z then "たった今"
     else if (diff <? 3600000)%Z then pretty (diff / 60000)%Z +:+ "分前"
     else if (diff <? 86400000)%Z then pretty (diff / 3600000)%Z +:+ "時間前"
     else if (diff <? 2592000000)%Z then pretty (diff / 86400000)%Z +:+ "日前"
     else toLocaleDateString (Some t))
  /\ (if (diff <? 60000)%Z then True
      else if (diff <? 3600000)%Z then (1 <= diff / 60000 <= 59)%Z
      else if (diff <? 86400000)%Z then (1 <= diff / 3600000 <= 23)%Z
      else if (diff <? 2592000000)%Z then (1 <= diff / 86400000 <= 29)%Z
      else True).
Proof.
  intros diff. unfold getRelativeTime. fold diff.
  destruct (Z.ltb_spec diff 60000) as [H1|H1].
  { destruct (Z.ltb_spec (diff / 60000) 1) as [_|Hq]; [by split|].
    exfalso. assert (diff / 60000 <= 0)%Z; [|lia].
    apply Z.lt_succ_r. apply Z.div_lt_upper_bound; lia. }
  destruct (Z.ltb_spec (diff / 60000) 1) as [Hq|_].
  { exfalso. assert (1 <= diff / 60000)%Z; [|lia]. apply Z.div_le_lower_bound; lia. }
  destruct (Z.ltb_spec diff 3600000) as [H2|H2].
  { destruct (Z.ltb_spec (diff / 60000) 60) as [_|Hq].
    - split; [reflexivity|]. split; [apply Z.div_le_lower_bound; lia|].
      apply Z.lt_succ_r. apply Z.div_lt_upper_bound; lia.
    - exfalso. assert (diff / 60000 < 60)%Z; [|lia]. apply Z.div_lt_upper_bound; lia. }
  destruct (Z.ltb_spec (diff / 60000) 60) as [Hq|_].
  { exfalso. assert (60 <= diff / 60000)%Z; [|lia]. apply Z.div_le_lower_bound; lia. }
  destruct (Z.ltb_spec diff 86400000) as [H3|H3].
  { destruct (Z.ltb_spec (diff / 3600000) 24) as [_|Hq].
    - split; [reflexivity|]. split; [apply Z.div_le_lower_bound; lia|].
      apply Z.lt_succ_r. apply Z.div_lt_upper_bound; lia.
    - exfalso. assert (diff / 3600000 < 24)%Z; [|lia]. apply Z.div_lt_upper_bound; lia. }
  destruct (Z.ltb_spec (diff / 3600000) 24) as [Hq|_].
  { exfalso. assert (24 <= diff / 3600000)%Z; [|lia]. apply Z.div_le_lower_bound; lia. }
  destruct (Z.ltb_spec diff 2592000000) as [H4|H4].
  { destruct (Z.ltb_spec (diff / 86400000) 30) as [_|Hq].
    - split; [reflexivity|]. split; [apply Z.div_le_lower_bound; lia|].
      apply Z.lt_succ_r. apply Z.div_lt_upper_bound; lia.
    - exfalso. assert (diff / 86400000 < 30)%Z; [|lia]. apply Z.div_lt_upper_bound; lia. }
  destruct (Z.ltb_spec (diff / 86400000) 30) as [Hq|_]; [|by split].
  exfalso. assert (30 <= diff / 86400000)%Z; [|lia]. apply Z.div_le_lower_bound; lia.
Qed.

(** X28: the effect that loads the stored result never throws and always
    ends with [isLoading] off.  A missing or empty entry and a text that
    [JSON.parse] rejects each set their own message and no result; a text
    that parses becomes the result, with no message. *)
Theorem loadResult_outcome (sessionStorage : gmap string string) :
  loadResult JSON_parse sessionStorage initial
  = (Returns tt,
     match sessionStorage !! "processingResult" with
     | None | Some "" =>
         {| result := JNull; isLoading := false;
            error := "処理結果が見つかりません。再度アップロードしてください。";
            isSaving := false |}
     | Some storedResult =>
         match JSON_parse storedResult with
         | Some parsedResult =>
             {| result := parsedResult; isLoading := false; error := "";
                isSaving := false |}
         | None =>
             {| result := JNull; isLoading := false;
                error := "結果の読み込み中にエラーが発生しました。";
                isSaving := false |}
         end
     end).
Proof.
  unfold loadResult, try_finally, try_catch.
  destruct (sessionStorage !! "processingResult") as [[|a text]|]; try reflexivity.
  unfold bind, useLocalStorage.parse.
  destruct (JSON_parse (String a text)); reflexivity.
Qed.

End Result.
